(** * Report generator: a shallow embedding of [src/main.py] and its properties

    The program turns pandas data frames into an openpyxl workbook:
    [ReportAnalyzer] aggregates a frame, [ExcelReportGenerator] writes frames
    into worksheets, styles them, binds charts and saves the workbook.

    The embedding keeps the shapes of the program:
    - a data frame is a list of column names, their dtypes and a list of rows;
    - a worksheet is a finite map from (row, column) to cells, as openpyxl's
      [_cells] dictionary, with [column_dimensions] and the list of charts;
    - the generator object is a record holding the worksheet objects, the
      workbook ([None] before [create_workbook]) and the [worksheets]
      dictionary; the last two refer to the same worksheet objects;
    - a Python exception is the [Raise] outcome of a computation; what
      pandas and openpyxl refuse is part of the embedding: values that do
      not compare, a title or a cell string with a character it may not
      have, a merged cell asked for a value or a column letter, a column
      after [ZZZ], a workbook without sheets at saving. *)

From stdpp Require Import gmap strings list fin_maps pretty sorting.
From Stdlib Require Import ZArith Floats.PrimFloat Floats.SpecFloat Floats.FloatOps
  Floats.FloatAxioms.

Local Open Scope Z_scope.

(** ** Python values and exceptions *)

(** The exception classes the modelled code can raise.
    [IllegalCharacterError] is openpyxl's. [NotModelled] is not a Python
    exception: it marks a pandas computation on float64 data, whose summation
    order this development does not describe. *)
Inductive exn :=
  | TypeError | ValueError | AttributeError | IndexError | OSError
  | IllegalCharacterError | NotModelled.

Inductive result (A : Type) : Type :=
  | Ok (a : A)
  | Raise (e : exn).
Arguments Ok {A} a.
Arguments Raise {A} e.

#[global] Instance result_ret : MRet result := λ A a, Ok a.
#[global] Instance result_bind : MBind result := λ A B f m,
  match m with Ok a => f a | Raise e => Raise e end.

(** A pandas [Timestamp], at day resolution. *)
Record date := Date { year : Z; month : Z; day : Z }.

(** A cell value. [VNone] is Python's [None], [VNaT] pandas' missing
    timestamp, [VFloat] a binary64 number, and [VObj r] stands for any other
    Python object, [r] being what [str] returns on it ([None] when [str]
    raises). *)
Inductive pyval :=
  | VNone
  | VNaT
  | VInt (z : Z)
  | VFloat (f : float)
  | VStr (s : string)
  | VDate (d : date)
  | VObj (r : option string).

#[global] Instance exn_eq_dec : EqDecision exn.
Proof. solve_decision. Defined.

#[global] Instance date_eq_dec : EqDecision date.
Proof. solve_decision. Defined.

#[global] Instance float_eq_dec : EqDecision float.
Proof.
  refine (λ x y,
    match Leibniz.eqb x y as b return Leibniz.eqb x y = b → Decision (x = y) with
    | true => λ H, left _
    | false => λ H, right _
    end eq_refl).
  - by apply Leibniz.eqb_spec.
  - intros Hxy. apply Leibniz.eqb_spec in Hxy. congruence.
Defined.

#[global] Instance pyval_eq_dec : EqDecision pyval.
Proof. solve_decision. Defined.

(** *** Calendar *)

Definition is_leap (y : Z) : bool :=
  ((y mod 4 =? 0) && negb (y mod 100 =? 0)) || (y mod 400 =? 0).

Definition days_in_month (y m : Z) : Z :=
  if m =? 2 then (if is_leap y then 29 else 28)
  else if (m =? 4) || (m =? 6) || (m =? 9) || (m =? 11) then 30
  else 31.

(** Calendar months are numbered consecutively: twelve per year. *)
Definition month_index (d : date) : Z := year d * 12 + (month d - 1).

(** The label pandas gives the bucket of a month under [freq='M']: the last
    day of that month. *)
Definition month_end (i : Z) : date :=
  let y := i / 12 in
  let m := i mod 12 + 1 in
  Date y m (days_in_month y m).

Definition date_ltb (a b : date) : bool :=
  (year a <? year b)
  || ((year a =? year b)
      && ((month a <? month b)
          || ((month a =? month b) && (day a <? day b)))).

Definition date_leb (a b : date) : bool := negb (date_ltb b a).

(** Two decimal digits, as [%d] and [%m] print them. *)
Definition pad2 (n : Z) : string :=
  if n <? 10 then "0" +:+ pretty n else pretty n.

(** [d.strftime('%d/%m/%Y')]. *)
Definition strftime_dmy (d : date) : string :=
  pad2 (day d) +:+ "/" +:+ pad2 (month d) +:+ "/" +:+ pretty (year d).

(** [str] of a timestamp at midnight. *)
Definition str_timestamp (d : date) : string :=
  pretty (year d) +:+ "-" +:+ pad2 (month d) +:+ "-" +:+ pad2 (day d)
  +:+ " 00:00:00".

(** *** Numbers *)

(** int64 arithmetic wraps around. *)
Definition wrap64 (z : Z) : Z := (z + 2 ^ 63) mod 2 ^ 64 - 2 ^ 63.

Definition in_int64 (z : Z) : Prop := - 2 ^ 63 ≤ z < 2 ^ 63.

(** Conversion of an integer to binary64, rounding to nearest. *)
Definition float_of_Z (z : Z) : float :=
  SF2Prim (binary_normalize prec emax z 0 false).

(** One step of [Series.pct_change() * 100]: [(cur / prev - 1) * 100]. *)
Definition pct_change (prev cur : Z) : float :=
  ((float_of_Z cur / float_of_Z prev - 1) * 100)%float.

(** *** [str], truthiness and comparison *)

(** [str(v)]; [None] when it raises. How Python prints a float is left to
    [float_str]. *)
Definition py_str (float_str : float → string) (v : pyval) : option string :=
  match v with
  | VNone => Some "None"
  | VNaT => Some "NaT"
  | VInt z => Some (pretty z)
  | VFloat f => Some (float_str f)
  | VStr s => Some s
  | VDate d => Some (str_timestamp d)
  | VObj r => r
  end.

(** [bool(v)] as an [if] condition takes it. *)
Definition py_truthy (v : pyval) : bool :=
  match v with
  | VNone => false
  | VInt z => negb (z =? 0)
  | VFloat f => negb (PrimFloat.eqb f 0)
  | VStr s => negb (String.eqb s "")
  | VNaT | VDate _ | VObj _ => true
  end.

(** [v.strftime('%d/%m/%Y')]: timestamps have the method, [NaT] refuses it,
    other values do not have it. *)
Definition py_strftime (v : pyval) : result string :=
  match v with
  | VDate d => Ok (strftime_dmy d)
  | VNaT => Raise ValueError
  | _ => Raise AttributeError
  end.

(** [a < b] in Python: numbers compare with numbers, strings with strings,
    timestamps with timestamps; anything else raises [TypeError]. *)
Definition py_lt (a b : pyval) : result bool :=
  match a, b with
  | VInt x, VInt y => Ok (x <? y)
  | VInt x, VFloat g => Ok (PrimFloat.ltb (float_of_Z x) g)
  | VFloat f, VInt y => Ok (PrimFloat.ltb f (float_of_Z y))
  | VFloat f, VFloat g => Ok (PrimFloat.ltb f g)
  | VStr s, VStr t => Ok (String.ltb s t)
  | VDate d, VDate e => Ok (date_ltb d e)
  | _, _ => Raise TypeError
  end.

Definition is_null (v : pyval) : bool :=
  match v with
  | VNone | VNaT => true
  | VFloat f => PrimFloat.is_nan f
  | _ => false
  end.

(** ** Data model *)

(** *** pandas data frames *)

Inductive dtype := int64 | float64 | object | datetime64.

#[global] Instance dtype_eq_dec : EqDecision dtype.
Proof. solve_decision. Defined.

(** A frame: the column names in order, the dtype of each column, and the
    rows ([data.values]), each row listing its cells in column order. *)
Record DataFrame := {
  columns : list string;
  dtypes : list dtype;
  values : list (list pyval)
}.

(** [pd.DataFrame()]: no column and no row. *)
Definition empty_frame : DataFrame :=
  {| columns := []; dtypes := []; values := [] |}.

(** What a column of a given dtype holds. *)
Definition conforms (t : dtype) (v : pyval) : Prop :=
  match t, v with
  | int64, VInt z => in_int64 z
  | float64, VFloat _ => True
  | datetime64, (VDate _ | VNaT) => True
  | object, (VNone | VStr _ | VInt _) => True
  | _, _ => False
  end.

(** The invariant of a frame: distinct column names, one dtype per column,
    and every row has one conforming cell per column. *)
Record well_formed (data : DataFrame) : Prop := {
  wf_names : NoDup (columns data);
  wf_dtypes : length (dtypes data) = length (columns data);
  wf_rows : Forall (λ row, Forall2 conforms (dtypes data) row) (values data)
}.

(** *** openpyxl worksheets *)

Record Font := { bold : bool; color : option string; font_size : option Z }.

Record PatternFill := {
  start_color : string; end_color : string; fill_type : string
}.

Record Alignment := { horizontal : string; vertical : string }.

(** A border: the line style of each side. *)
Record Border := {
  side_left : string; side_right : string; side_top : string; side_bottom : string
}.

(** A cell: its value and the style attributes the program sets ([None]
    where the cell still has openpyxl's default). [merged] tells openpyxl's
    two classes of cells apart: a [MergedCell] fills the place of a cell that
    a merged range covers (all but the top left one); it can be styled, but
    it takes no value and has no [column_letter]. *)
Record Cell := {
  merged : bool;
  value : pyval;
  font : option Font;
  fill : option PatternFill;
  alignment : option Alignment;
  border : option Border
}.

Inductive chart_kind := BarChart | LineChart.

(** [Reference(ws, min_col, min_row, max_col, max_row)]. *)
Record Reference := {
  min_col : positive; min_row : positive; max_col : positive; max_row : positive
}.

Record Chart := {
  kind : chart_kind;
  chart_title : string;
  chart_style : Z;
  data_ref : Reference;
  titles_from_data : bool;
  anchor : string
}.

(** A worksheet: [_cells], keyed by (row, column), both counted from 1;
    [column_dimensions], keyed by the column (openpyxl keys it by the
    column letter, which it derives one-to-one from the column number);
    the charts and the merged ranges. *)
Record Worksheet := {
  cells : gmap (positive * positive) Cell;
  column_dimensions : gmap positive Z;
  charts : list Chart;
  merged_cells : list string
}.

(** *** The generator object and its surroundings *)

Record ReportConfig := {
  title : string;
  output_path : string;
  include_charts : bool;
  include_summary : bool;
  auto_format : bool;
  company_name : string
}.

(** [self], with the worksheet objects made so far ([objects], which only
    grows). The workbook lists its worksheets in creation order and
    [worksheets] maps a name to a worksheet; both refer to a worksheet by its
    position in [objects], so that a change made through [worksheets[name]]
    is a change of the worksheet the workbook holds. *)
Record ExcelReportGenerator := {
  config : ReportConfig;
  objects : list Worksheet;
  workbook : option (list nat);
  worksheets : gmap string nat
}.

(** The documents written so far, by path. *)
Abbreviation Files := (gmap string (list Worksheet)).

(** The result of [get_summary_stats]. *)
Record DateRange := { start : pyval; end_ : pyval }.

Record Summary (S : Type) := {
  total_records : nat;
  date_range : DateRange;
  numeric_summary : list (string * S)
}.
Arguments total_records {S} _.
Arguments date_range {S} _.
Arguments numeric_summary {S} _.

(** What the program takes from outside:
    - [describe]: pandas' descriptive statistics of one numeric column
      (count, mean, std, min, quartiles, max), of some type [Stats];
    - [float_str]: Python's printing of a float;
    - [now_text]: the clock, read as [datetime.now().strftime('%d/%m/%Y %H:%M')];
    - [persist path wb]: whether the file system lets the parent directory
      be made and the document be written at [path]. *)
Record Env := {
  Stats : Type;
  describe : list pyval → Stats;
  float_str : float → string;
  now_text : string;
  persist : string → list Worksheet → bool
}.

(** Computations on the generator: they return, or raise with the object as
    the exception left it. *)
Inductive outcome (A : Type) : Type :=
  | Returned (a : A) (self : ExcelReportGenerator)
  | Raised (e : exn) (self : ExcelReportGenerator).
Arguments Returned {A} a self.
Arguments Raised {A} e self.

(** ** pandas operations used by [ReportAnalyzer] *)

(** Position of a column name ([data[name]] takes the column there). *)
Fixpoint index_of (name : string) (names : list string) : option nat :=
  match names with
  | [] => None
  | n :: rest => if decide (n = name) then Some 0%nat else S <$> index_of name rest
  end.

(** The cells of the column at position [i], one per row. *)
Definition column_at (data : DataFrame) (i : nat) : list pyval :=
  map (λ row, default VNone (row !! i)) (values data).

(** [data[name]] as the list of its cells. *)
Definition column (data : DataFrame) (name : string) : list pyval :=
  match index_of name (columns data) with
  | Some i => column_at data i
  | None => []
  end.

Definition column_dtype (data : DataFrame) (name : string) : dtype :=
  default object (i ← index_of name (columns data); dtypes data !! i).

(** [data.select_dtypes(include=[np.number]).columns]. *)
Definition is_number (t : dtype) : bool :=
  match t with int64 | float64 => true | _ => false end.

Definition select_dtypes_number (data : DataFrame) : list string :=
  (filter (λ p, is_number p.2 = true) (zip (columns data) (dtypes data))).*1.

(** numpy's reduction of an object array with [minimum] / [maximum]: the
    running best is compared with each next element, and a comparison Python
    refuses raises. *)
Fixpoint reduce_min (acc : pyval) (xs : list pyval) : result pyval :=
  match xs with
  | [] => Ok acc
  | v :: rest => b ← py_lt v acc; reduce_min (if b : bool then v else acc) rest
  end.

Fixpoint reduce_max (acc : pyval) (xs : list pyval) : result pyval :=
  match xs with
  | [] => Ok acc
  | v :: rest => b ← py_lt acc v; reduce_max (if b : bool then v else acc) rest
  end.

Definition nan : pyval := VFloat PrimFloat.nan.

(** What stands for a missing value of that dtype. *)
Definition na_of (t : dtype) : pyval :=
  match t with datetime64 => VNaT | _ => nan end.

(** [Series.min()] and [Series.max()], with [skipna=True]. The values that
    the reduction compares are [compared]: a typed column drops its missing
    values; an object column has them replaced by an infinity of type float,
    so that a missing value next to a string makes the reduction raise. A
    column without any value gives the missing value of its dtype. *)
Definition compared (filler : float) (t : dtype) (xs : list pyval) : list pyval :=
  match t with
  | object => map (λ v, if is_null v then VFloat filler else v) xs
  | _ => filter (λ v, is_null v = false) xs
  end.

Definition series_reduce (reduce : pyval → list pyval → result pyval)
    (filler : float) (t : dtype) (xs : list pyval) : result pyval :=
  if forallb is_null xs then Ok (na_of t)
  else
    match compared filler t xs with
    | [] => Ok (na_of t)
    | x :: rest => reduce x rest
    end.

Definition series_min : dtype → list pyval → result pyval :=
  series_reduce reduce_min PrimFloat.infinity.

Definition series_max : dtype → list pyval → result pyval :=
  series_reduce reduce_max PrimFloat.neg_infinity.

(** *** Grouping *)

(** The order in which [groupby] (with its default [sort=True]) lists the
    group keys: integers by value, strings by code point, timestamps by
    date; in an object column that mixes them, integers come before
    strings. *)
Definition key_rank (v : pyval) : Z :=
  match v with VInt _ => 0 | VStr _ => 1 | VDate _ => 2 | _ => 3 end.

Definition key_leb (a b : pyval) : bool :=
  match a, b with
  | VInt x, VInt y => x <=? y
  | VStr s, VStr t => String.leb s t
  | VDate d, VDate e => date_leb d e
  | _, _ => key_rank a <=? key_rank b
  end.

Definition key_le (a b : pyval) : Prop := key_leb a b = true.

#[global] Instance key_le_dec : RelDecision key_le := λ a b, decide (key_leb a b = true).

(** [a] comes strictly before [b] among the group keys. *)
Definition key_lt (a b : pyval) : Prop := key_le a b ∧ ¬ key_le b a.

Definition int_of (v : pyval) : Z :=
  match v with VInt z => z | _ => 0 end.

(** The distinct keys of the groups, in [groupby]'s order; rows whose key is
    missing belong to no group ([dropna=True]). *)
Definition group_keys (ks : list pyval) : list pyval :=
  merge_sort key_le (remove_dups (filter (λ k, is_null k = false) ks)).

(** The int64 sum of the values of the rows whose key is [k]. *)
Definition group_total (rows : list (pyval * pyval)) (k : pyval) : Z :=
  foldl (λ acc r, if decide (r.1 = k) then wrap64 (acc + int_of r.2) else acc) 0 rows.

(** [data.groupby(column)[value_column].sum()] on the rows given as
    (key, value) pairs: a series indexed by the sorted distinct keys. *)
Definition groupby_sum (rows : list (pyval * pyval)) : list (pyval * Z) :=
  map (λ k, (k, group_total rows k)) (group_keys rows.*1).

(** [Series.nlargest(n)] with its default [keep='first']: the entries by
    descending value, entries of equal value in the order of the series, cut
    after [n] entries. [insert_desc] puts an entry before the first one that
    is not larger. *)
Fixpoint insert_desc (p : pyval * Z) (l : list (pyval * Z)) : list (pyval * Z) :=
  match l with
  | [] => [p]
  | q :: rest => if p.2 <? q.2 then q :: insert_desc p rest else p :: q :: rest
  end.

Definition sort_desc (s : list (pyval * Z)) : list (pyval * Z) :=
  foldr insert_desc [] s.

Definition nlargest (n : Z) (s : list (pyval * Z)) : list (pyval * Z) :=
  if n <=? 0 then [] else take (Z.to_nat n) (sort_desc s).

(** [Series.reset_index()] of a series named [value_column] whose index is
    named [column]: a frame with these two columns. *)
Definition ranking_frame (column value_column : string) (t : dtype)
    (s : list (pyval * Z)) : DataFrame :=
  {| columns := [column; value_column];
     dtypes := [t; int64];
     values := map (λ p, [p.1; VInt p.2]) s |}.

(** *** Monthly buckets *)

(** The rows that carry a timestamp, as (month number, value). *)
Definition dated (rows : list (pyval * pyval)) : list (Z * Z) :=
  omap (λ r, match r.1 with
             | VDate d => Some (month_index d, int_of r.2)
             | _ => None
             end) rows.

(** The buckets of [pd.Grouper(freq='M')]: every month from the earliest to
    the latest one that has a row. *)
Definition month_range (xs : list (Z * Z)) : list Z :=
  match xs.*1 with
  | [] => []
  | i :: rest =>
      let lo := foldl Z.min i rest in
      let hi := foldl Z.max i rest in
      seqZ lo (hi - lo + 1)
  end.

(** The int64 sum of the values of the rows of month [i]; 0 when the month
    has no row. *)
Definition month_total (xs : list (Z * Z)) (i : Z) : Z :=
  foldl (λ acc r, if decide (r.1 = i) then wrap64 (acc + r.2) else acc) 0 xs.

(** [pct_change() * 100] along a series: the first entry has no
    predecessor. *)
Fixpoint growth_rates (prev : option Z) (sums : list Z) : list float :=
  match sums with
  | [] => []
  | s :: rest =>
      match prev with
      | None => PrimFloat.nan
      | Some p => pct_change p s
      end :: growth_rates (Some s) rest
  end.

Definition trend_rows (xs : list (Z * Z)) : list (list pyval) :=
  let months := month_range xs in
  let sums := map (month_total xs) months in
  zip_with (λ i sg, [VDate (month_end i); VInt sg.1; VFloat sg.2])
    months (zip sums (growth_rates None sums)).

Definition growth_rate : string := "growth_rate".

Definition trend_frame (date_col value_col : string) (xs : list (Z * Z)) : DataFrame :=
  {| columns := [date_col; value_col; growth_rate];
     dtypes := [datetime64; int64; float64];
     values := trend_rows xs |}.

(** ** ReportAnalyzer *)

(** [get_summary_stats]. The dictionary literal is evaluated in order:
    record count, start of the date range, its end, numeric summary. *)
Definition get_summary_stats (E : Env) (data : DataFrame) : result (Summary (Stats E)) :=
  let numeric_cols := select_dtypes_number data in
  let total := length (values data) in
  first ←
    (if decide ("data" ∈ columns data)
     then series_min (column_dtype data "data") (column data "data")
     else Ok VNone);
  last ←
    (if decide ("data" ∈ columns data)
     then series_max (column_dtype data "data") (column data "data")
     else Ok VNone);
  Ok {| total_records := total;
        date_range := {| start := first; end_ := last |};
        numeric_summary :=
          if (0 <? length numeric_cols)%nat
          then map (λ c, (c, describe E (column data c))) numeric_cols
          else [] |}.

(** [get_top_performers]. The sum is over int64 values; [sum] refuses
    timestamps and [nlargest] refuses object values; [reset_index] refuses to
    insert the index as a column whose name the series already bears. *)
Definition get_top_performers (data : DataFrame) (column_ value_column : string)
    (top_n : Z) : result DataFrame :=
  if decide (column_ ∈ columns data ∧ value_column ∈ columns data) then
    match column_dtype data column_, column_dtype data value_column with
    | float64, _ | _, float64 => Raise NotModelled
    | _, (datetime64 | object) => Raise TypeError
    | t, int64 =>
        let grouped := groupby_sum (zip (column data column_) (column data value_column)) in
        let top := nlargest top_n grouped in
        if decide (column_ = value_column) then Raise ValueError
        else Ok (ranking_frame column_ value_column t top)
    end
  else Ok empty_frame.

(** [get_trend_analysis]. [pd.Grouper(freq='M')] needs a datetime column;
    the sum is over int64 values. *)
Definition get_trend_analysis (data : DataFrame) (date_col value_col : string)
    : result DataFrame :=
  if decide (date_col ∈ columns data ∧ value_col ∈ columns data) then
    match column_dtype data date_col, column_dtype data value_col with
    | datetime64, int64 =>
        Ok (trend_frame date_col value_col
              (dated (zip (column data date_col) (column data value_col))))
    | datetime64, float64 => Raise NotModelled
    | _, _ => Raise TypeError
    end
  else Ok empty_frame.

(** ** openpyxl operations used by [ExcelReportGenerator] *)

Definition empty_cell : Cell :=
  {| merged := false; value := VNone; font := None; fill := None;
     alignment := None; border := None |}.

Definition merged_cell : Cell :=
  {| merged := true; value := VNone; font := None; fill := None;
     alignment := None; border := None |}.

(** [wb.create_sheet()]: a worksheet without cells. *)
Definition empty_sheet : Worksheet :=
  {| cells := ∅; column_dimensions := ∅; charts := []; merged_cells := [] |}.

Definition with_value (v : pyval) (x : Cell) : Cell :=
  {| merged := merged x; value := v; font := font x; fill := fill x;
     alignment := alignment x; border := border x |}.

Definition with_font (f : Font) (x : Cell) : Cell :=
  {| merged := merged x; value := value x; font := Some f; fill := fill x;
     alignment := alignment x; border := border x |}.

Definition with_fill (f : PatternFill) (x : Cell) : Cell :=
  {| merged := merged x; value := value x; font := font x; fill := Some f;
     alignment := alignment x; border := border x |}.

Definition with_alignment (a : Alignment) (x : Cell) : Cell :=
  {| merged := merged x; value := value x; font := font x; fill := fill x;
     alignment := Some a; border := border x |}.

Definition with_border (b : Border) (x : Cell) : Cell :=
  {| merged := merged x; value := value x; font := font x; fill := fill x;
     alignment := alignment x; border := Some b |}.

Definition with_cells (cs : gmap (positive * positive) Cell) (ws : Worksheet) : Worksheet :=
  {| cells := cs; column_dimensions := column_dimensions ws;
     charts := charts ws; merged_cells := merged_cells ws |}.

(** [ws.max_row] and [ws.max_column]: the largest row and column that has a
    cell, and 1 on a worksheet without cells. *)
Definition ws_max (proj : positive * positive → positive)
    (cs : gmap (positive * positive) Cell) : positive :=
  map_fold (λ rc _ m, Pos.max (proj rc) m) 1%positive cs.

Definition ws_max_row (ws : Worksheet) : positive := ws_max fst (cells ws).

Definition ws_max_column (ws : Worksheet) : positive := ws_max snd (cells ws).

(** The cell at a place, as [ws._get_cell] returns it: an empty cell is made
    there when the place has none. *)
Definition get_cell (ws : Worksheet) (rc : positive * positive) : Cell :=
  default empty_cell (cells ws !! rc).

(** Access to a cell through [ws.cell], [ws[...]] or an iterator: the
    worksheet has that cell from then on. *)
Definition touch (rc : positive * positive) (ws : Worksheet) : Worksheet :=
  with_cells (<[rc := get_cell ws rc]> (cells ws)) ws.

(** An attribute of the cell at [rc] is assigned: [f] is the change. *)
Definition restyle (f : Cell → Cell) (rc : positive * positive) (ws : Worksheet) : Worksheet :=
  with_cells (<[rc := f (get_cell ws rc)]> (cells ws)) ws.

(** Computations on one worksheet: they finish, or raise with the worksheet
    as the exception left it. *)
Inductive sheet_outcome :=
  | SheetOk (ws : Worksheet)
  | SheetRaised (e : exn) (ws : Worksheet).

(** A [for] loop whose body may raise. *)
Fixpoint for_each {A : Type} (body : A → Worksheet → sheet_outcome)
    (l : list A) (ws : Worksheet) : sheet_outcome :=
  match l with
  | [] => SheetOk ws
  | a :: rest =>
      match body a ws with
      | SheetOk ws' => for_each body rest ws'
      | SheetRaised e ws' => SheetRaised e ws'
      end
  end.

(** The characters a string of a worksheet may not have
    ([ILLEGAL_CHARACTERS_RE]): the control characters other than tab, line
    feed and carriage return. *)
Definition is_illegal (a : Ascii.ascii) : bool :=
  let n := Ascii.N_of_ascii a in
  ((n <=? 8) || ((11 <=? n) && (n <=? 12)) || ((14 <=? n) && (n <=? 31)))%N.

(** [Cell.check_string]: the string is cut after 32767 characters, and what
    is left is refused when it has an illegal character. *)
Definition check_string (s : string) : result string :=
  let s' := if (32767 <? Z.of_nat (String.length s))
            then String.substring 0 (Z.to_nat 32767) s else s in
  if existsb is_illegal (String.list_ascii_of_string s')
  then Raise IllegalCharacterError else Ok s'.

(** The assignment [cell.value = v] ([Cell._bind_value]) gives the value the
    cell stores: numbers and timestamps as they are, strings as
    [check_string] leaves them; an object that is none of these is
    refused. *)
Definition bind_value (v : pyval) : result pyval :=
  match v with
  | VObj _ => Raise ValueError
  | VStr s => s' ← check_string s; Ok (VStr s')
  | _ => Ok v
  end.

(** [ws.cell(row=r, column=c, value=v)]: the cell is fetched (and made when
    absent); a value other than [None] is then assigned, which a merged cell
    refuses. *)
Definition ws_cell (r c : positive) (v : pyval) (ws : Worksheet) : sheet_outcome :=
  let ws' := touch (r, c) ws in
  if decide (v = VNone) then SheetOk ws'
  else if merged (get_cell ws' (r, c)) then SheetRaised AttributeError ws'
  else
    match bind_value v with
    | Ok v' => SheetOk (restyle (with_value v') (r, c) ws')
    | Raise e => SheetRaised e ws'
    end.

(** [enumerate(xs, start)]. *)
Fixpoint enumerate {A : Type} (start : positive) (xs : list A) : list (positive * A) :=
  match xs with
  | [] => []
  | x :: rest => (start, x) :: enumerate (Pos.succ start) rest
  end.

(** The numbers 1 .. n. *)
Definition pos_upto (n : positive) : list positive :=
  Pos.of_nat <$> seq 1 (Pos.to_nat n).

Definition sheet_bind (m : sheet_outcome) (k : Worksheet → sheet_outcome) : sheet_outcome :=
  match m with
  | SheetOk ws => k ws
  | SheetRaised e ws => SheetRaised e ws
  end.

(** The rectangle that [ws[1]], [ws.columns] and [ws.iter_rows()] walk is
    bounded by [max_row] and [max_column] as they are when the iteration
    starts; [ws.columns] and [ws.iter_rows()] yield nothing on a worksheet
    that never had a cell. *)
Definition row_coords (r : positive) (ncols : positive) : list (positive * positive) :=
  (λ c, (r, c)) <$> pos_upto ncols.

Definition col_coords (c : positive) (nrows : positive) : list (positive * positive) :=
  (λ r, (r, c)) <$> pos_upto nrows.

Definition ws_row_1 (ws : Worksheet) : list (positive * positive) :=
  row_coords 1 (ws_max_column ws).

Definition ws_columns (ws : Worksheet) : list (list (positive * positive)) :=
  if (size (cells ws) =? 0)%nat then []
  else (λ c, col_coords c (ws_max_row ws)) <$> pos_upto (ws_max_column ws).

Definition ws_iter_rows (ws : Worksheet) : list (list (positive * positive)) :=
  if (size (cells ws) =? 0)%nat then []
  else (λ r, row_coords r (ws_max_column ws)) <$> pos_upto (ws_max_row ws).

(** The cells of a yielded row or column exist from then on. *)
Definition touch_all (l : list (positive * positive)) (ws : Worksheet) : Worksheet :=
  foldl (λ w rc, touch rc w) ws l.

Definition restyle_all (f : Cell → Cell) (l : list (positive * positive))
    (ws : Worksheet) : Worksheet :=
  foldl (λ w rc, restyle f rc w) ws l.

(** [ws.merge_cells('A1:E1')]: a merged cell takes each place of the range
    but the first, and the range is recorded. *)
Definition merge_A1_E1 (ws : Worksheet) : Worksheet :=
  let cs := foldl (λ m c, <[(1%positive, c) := merged_cell]> m) (cells ws)
              [2; 3; 4; 5]%positive in
  {| cells := cs; column_dimensions := column_dimensions ws;
     charts := charts ws; merged_cells := merged_cells ws ++ ["A1:E1"] |}.

(** ** ExcelReportGenerator *)

Definition with_objects (objs : list Worksheet) (self : ExcelReportGenerator)
    : ExcelReportGenerator :=
  {| config := config self; objects := objs;
     workbook := workbook self; worksheets := worksheets self |}.

(** [body] runs on the worksheet object at [loc]. *)
Definition on_sheet (loc : nat) (body : Worksheet → sheet_outcome)
    (self : ExcelReportGenerator) : outcome unit :=
  match objects self !! loc with
  | None => Returned () self
  | Some ws =>
      match body ws with
      | SheetOk ws' => Returned () (with_objects (<[loc := ws']> (objects self)) self)
      | SheetRaised e ws' => Raised e (with_objects (<[loc := ws']> (objects self)) self)
      end
  end.

Definition and_then {A B : Type} (m : outcome A)
    (k : A → ExcelReportGenerator → outcome B) : outcome B :=
  match m with
  | Returned a self => k a self
  | Raised e self => Raised e self
  end.

(** [create_workbook]: a new workbook, its default sheet removed. *)
Definition create_workbook (self : ExcelReportGenerator) : ExcelReportGenerator :=
  {| config := config self; objects := objects self;
     workbook := Some []; worksheets := worksheets self |}.

(** The characters a worksheet title may not have ([INVALID_TITLE_REGEX]):
    backslash, asterisk, question mark, colon, slash and the square
    brackets. *)
Definition invalid_title_char (a : Ascii.ascii) : bool :=
  bool_decide (Ascii.N_of_ascii a ∈ [92; 42; 63; 58; 47; 91; 93]%N).

Definition valid_title (name : string) : bool :=
  negb (existsb invalid_title_char (String.list_ascii_of_string name)).

(** [ws = self.workbook.create_sheet(title=name); self.worksheets[name] = ws]:
    a new worksheet object, last in the workbook. Without a workbook the
    attribute access on [None] raises; a title with a character that titles
    may not have is refused before anything changes. *)
Definition create_sheet (name : string) (self : ExcelReportGenerator) : outcome nat :=
  match workbook self with
  | None => Raised AttributeError self
  | Some wb =>
      if valid_title name then
        let loc := length (objects self) in
        Returned loc
          {| config := config self;
             objects := objects self ++ [empty_sheet];
             workbook := Some (wb ++ [loc]);
             worksheets := <[name := loc]> (worksheets self) |}
      else Raised ValueError self
  end.

(** The two loops of [add_worksheet]. *)
Definition write_header (data : DataFrame) (ws : Worksheet) : sheet_outcome :=
  for_each (λ p, ws_cell 1 p.1 (VStr p.2)) (enumerate 1 (columns data)) ws.

Definition write_rows (data : DataFrame) (ws : Worksheet) : sheet_outcome :=
  for_each (λ p, for_each (λ q, ws_cell p.1 q.1 q.2) (enumerate 1 p.2))
    (enumerate 2 (values data)) ws.

Definition add_worksheet (name : string) (data : DataFrame)
    (self : ExcelReportGenerator) : outcome unit :=
  and_then (create_sheet name self) (λ loc,
    on_sheet loc (λ ws, sheet_bind (write_header data ws) (write_rows data))).

(** *** [format_worksheet] *)

Definition header_font : Font :=
  {| bold := true; color := Some "FFFFFF"; font_size := None |}.

Definition header_fill : PatternFill :=
  {| start_color := "366092"; end_color := "366092"; fill_type := "solid" |}.

Definition header_alignment : Alignment :=
  {| horizontal := "center"; vertical := "center" |}.

Definition thin_border : Border :=
  {| side_left := "thin"; side_right := "thin"; side_top := "thin";
     side_bottom := "thin" |}.

Definition style_header_cell (x : Cell) : Cell :=
  with_alignment header_alignment (with_fill header_fill (with_font header_font x)).

(** [for cell in ws[1]: ...]. *)
Definition style_header (ws : Worksheet) : Worksheet :=
  restyle_all style_header_cell (ws_row_1 ws) ws.

(** The inner loop over a column: the longest [str] of a value; a value
    whose [str] raises is passed over. *)
Definition longest (E : Env) (ws : Worksheet) (col : list (positive * positive)) : Z :=
  foldl (λ max_length rc,
           match py_str (float_str E) (value (get_cell ws rc)) with
           | Some s =>
               if Z.of_nat (String.length s) >? max_length
               then Z.of_nat (String.length s) else max_length
           | None => max_length
           end) 0 col.

Definition set_width (c : positive) (w : Z) (ws : Worksheet) : Worksheet :=
  {| cells := cells ws; column_dimensions := <[c := w]> (column_dimensions ws);
     charts := charts ws; merged_cells := merged_cells ws |}.

(** The columns that have a letter: [A] to [ZZZ]. *)
Definition last_lettered_column : positive := 18278.

(** The body of the loop over [ws.columns]. [column[0].column_letter] is
    read first: a merged cell does not have the attribute, and
    [get_column_letter] refuses a column after [ZZZ]. *)
Definition fit_column (E : Env) (col : list (positive * positive)) (ws : Worksheet)
    : sheet_outcome :=
  let ws1 := touch_all col ws in
  match col with
  | [] => SheetRaised IndexError ws1
  | first :: _ =>
      if merged (get_cell ws1 first) then SheetRaised AttributeError ws1
      else if (last_lettered_column <? first.2)%positive
      then SheetRaised ValueError ws1
      else
        let max_length := longest E ws1 col in
        let adjusted_width := Z.min (max_length + 2) 50 in
        SheetOk (set_width first.2 adjusted_width ws1)
  end.

(** The body of the loop over [ws.iter_rows()]. *)
Definition border_row (row : list (positive * positive)) (ws : Worksheet) : Worksheet :=
  restyle_all (with_border thin_border) row (touch_all row ws).

Definition format_sheet (E : Env) (ws : Worksheet) : sheet_outcome :=
  let ws1 := style_header ws in
  sheet_bind (for_each (fit_column E) (ws_columns ws1) ws1) (λ ws2,
    SheetOk (foldl (λ w row, border_row row w) ws2 (ws_iter_rows ws2))).

Definition format_worksheet (E : Env) (ws_name : string)
    (self : ExcelReportGenerator) : outcome unit :=
  match worksheets self !! ws_name with
  | None => Returned () self
  | Some loc => on_sheet loc (format_sheet E) self
  end.

(** *** [add_chart] *)

Definition chart_of_type (chart_type : string) : option chart_kind :=
  if decide (chart_type = "bar") then Some BarChart
  else if decide (chart_type = "line") then Some LineChart
  else None.

Definition with_chart (ch : Chart) (ws : Worksheet) : Worksheet :=
  {| cells := cells ws; column_dimensions := column_dimensions ws;
     charts := charts ws ++ [ch]; merged_cells := merged_cells ws |}.

Definition add_chart (ws_name chart_type data_range chart_title : string)
    (self : ExcelReportGenerator) : outcome unit :=
  match worksheets self !! ws_name with
  | None => Returned () self
  | Some loc =>
      match chart_of_type chart_type with
      | None => Returned () self
      | Some k =>
          on_sheet loc (λ ws,
            let data := {| min_col := 1; min_row := 1; max_col := 2;
                           max_row := ws_max_row ws |} in
            SheetOk (with_chart
                       {| kind := k; chart_title := chart_title; chart_style := 10;
                          data_ref := data; titles_from_data := true;
                          anchor := "E2" |} ws)) self
      end
  end.



(** *** [add_summary_sheet] *)

(** A character of a string is a code point below 256; [chr n] is the
    one-character string of code point [n]. *)
Definition chr (n : nat) : string := String (Ascii.ascii_of_nat n) "".

Definition resumo_executivo : string := "Resumo Executivo".

Definition title_text (company : string) : string :=
  "RELAT" +:+ chr 211 +:+ "RIO EXECUTIVO - " +:+ company.

Definition generated_text (now : string) : string := "Gerado em: " +:+ now.

Definition statistics_text : string := "ESTAT" +:+ chr 205 +:+ "STICAS GERAIS".

Definition total_text (n : nat) : string := "Total de Registros: " +:+ pretty n.

Definition period_text (first last : string) : string :=
  "Per" +:+ chr 237 +:+ "odo: " +:+ first +:+ " a " +:+ last.

Definition title_font : Font :=
  {| bold := true; color := None; font_size := Some 16 |}.

Definition bold_font : Font :=
  {| bold := true; color := None; font_size := None |}.

(** A pandas call that raises leaves the generator as it is. *)
Definition lift {A : Type} (r : result A) (self : ExcelReportGenerator) : outcome A :=
  match r with
  | Ok a => Returned a self
  | Raise e => Raised e self
  end.

(** [analyzer] is [ReportAnalyzer(data)]: it holds the frame. *)
Definition add_summary_sheet (E : Env) (analyzer : DataFrame)
    (self : ExcelReportGenerator) : outcome unit :=
  and_then (create_sheet resumo_executivo self) (λ loc self,
  and_then
    (on_sheet loc (λ ws,
       sheet_bind (ws_cell 1 1 (VStr (title_text (company_name (config self)))) ws) (λ ws,
       sheet_bind (SheetOk (restyle (with_font title_font) (1, 1)%positive ws)) (λ ws,
       sheet_bind (SheetOk (merge_A1_E1 ws)) (λ ws,
       ws_cell 3 1 (VStr (generated_text (now_text E))) ws)))) self) (λ _ self,
  and_then (lift (get_summary_stats E analyzer) self) (λ summary self,
  and_then
    (on_sheet loc (λ ws,
       sheet_bind (ws_cell 5 1 (VStr statistics_text) ws) (λ ws,
       sheet_bind (SheetOk (restyle (with_font bold_font) (5, 1)%positive ws)) (λ ws,
       ws_cell 6 1 (VStr (total_text (total_records summary))) ws))) self) (λ _ self,
  and_then
    (if py_truthy (start (date_range summary)) then
       and_then (lift (py_strftime (start (date_range summary))) self) (λ first self,
       and_then (lift (py_strftime (end_ (date_range summary))) self) (λ last self,
       on_sheet loc (ws_cell 7 1 (VStr (period_text first last))) self))
     else Returned () self) (λ _ self,
  format_worksheet E resumo_executivo self))))).

(** *** [save_report] *)

(** The document a workbook denotes: its worksheets, in order. *)
Definition document (self : ExcelReportGenerator) (wb : list nat) : list Worksheet :=
  omap (λ loc, objects self !! loc) wb.

(** Without a workbook nothing is saved, and nothing raised. Otherwise the
    parent directory is made and the file opened, which the file system may
    refuse; then the workbook is written, which openpyxl refuses for a
    workbook without a visible sheet. [files] gains the document when the
    writing completes. *)
Definition save_report (E : Env) (self : ExcelReportGenerator) (files : Files)
    : result Files :=
  match workbook self with
  | None => Ok files
  | Some wb =>
      let doc := document self wb in
      if persist E (output_path (config self)) doc then
        match doc with
        | [] => Raise IndexError
        | _ => Ok (<[output_path (config self) := doc]> files)
        end
      else Raise OSError
  end.

(** *** [generate_complete_report] *)

(** The loop over [data_dict.items()]. *)
Fixpoint add_data_sheets (E : Env) (items : list (string * DataFrame))
    (self : ExcelReportGenerator) : outcome unit :=
  match items with
  | [] => Returned () self
  | (sheet_name, data) :: rest =>
      and_then (add_worksheet sheet_name data self) (λ _ self,
      and_then
        (if auto_format (config self) then format_worksheet E sheet_name self
         else Returned () self) (λ _ self,
      add_data_sheets E rest self))
  end.

(** The statements before [self.save_report()] in the [try] block. *)
Definition assemble (E : Env) (data_dict : list (string * DataFrame))
    (self : ExcelReportGenerator) : outcome unit :=
  and_then (add_data_sheets E data_dict (create_workbook self)) (λ _ self,
    if include_summary (config self) && negb (length data_dict =? 0)%nat then
      match data_dict.*2 with
      | first_data :: _ => add_summary_sheet E first_data self
      | [] => Raised IndexError self
      end
    else Returned () self).

(** The whole call: [True] when the [try] block runs to its end, [False] when
    an exception reaches the [except] clause. The generator and the files are
    returned as the call leaves them. *)
Definition generate_complete_report (E : Env) (data_dict : list (string * DataFrame))
    (self : ExcelReportGenerator) (files : Files)
    : bool * ExcelReportGenerator * Files :=
  match assemble E data_dict self with
  | Raised _ self' => (false, self', files)
  | Returned _ self' =>
      match save_report E self' files with
      | Raise _ => (false, self', files)
      | Ok files' => (true, self', files')
      end
  end.

(** A new [ExcelReportGenerator(config)]. *)
Definition new_generator (c : ReportConfig) : ExcelReportGenerator :=
  {| config := c; objects := []; workbook := None; worksheets := ∅ |}.

(** * Specification vocabulary

    The pure counterparts of the loops, the predicates in which the
    properties are stated, and the frames and environments on which the
    program is run. *)

(** ** Pure counterparts of the loops *)

(** The worksheet, and the generator, as a computation leaves it, whether it
    returns or raises. *)
Definition sheet_after (m : sheet_outcome) : Worksheet :=
  match m with SheetOk ws | SheetRaised _ ws => ws end.

Definition state_after {A : Type} (m : outcome A) : ExcelReportGenerator :=
  match m with Returned _ self | Raised _ self => self end.

(** The generator after [create_sheet], with [ws] as what has become of the
    new worksheet since. *)
Definition with_new_sheet (name : string) (ws : Worksheet) (wb : list nat)
    (self : ExcelReportGenerator) : ExcelReportGenerator :=
  {| config := config self;
     objects := objects self ++ [ws];
     workbook := Some (wb ++ [length (objects self)]);
     worksheets := <[name := length (objects self)]> (worksheets self) |}.

(** What [ws.cell(row, column, value)] does to a cell that stores the value
    as it is. *)
Definition put_cell (v : pyval) (x : Cell) : Cell :=
  if decide (v = VNone) then x else with_value v x.

(** [ws.cell(row, column, value)] where the cell is not a merged one and
    stores the value as it is. *)
Definition put (v : pyval) (rc : positive * positive) (ws : Worksheet) : Worksheet :=
  restyle (put_cell v) rc ws.


(** One row written from column [start] on. *)
Definition write_row (r start : positive) (vals : list pyval) (ws : Worksheet) : Worksheet :=
  foldl (λ w q, put q.2 (r, q.1) w) ws (enumerate start vals).

(** The rows written from row [r0] on, each from column 1. *)
Definition write_block (r0 : positive) (rows : list (list pyval)) (ws : Worksheet)
    : Worksheet :=
  foldl (λ w p, write_row p.1 1 p.2 w) ws (enumerate r0 rows).

(** The worksheet [add_worksheet] makes of a frame of values that cells
    store as they are. *)
Definition sheet_of (data : DataFrame) : Worksheet :=
  write_block 2 (values data) (write_row 1 1 (VStr <$> columns data) empty_sheet).

(** The loop over the rows [rs], each with columns 1 .. n. *)
Definition border_rows (n : positive) (rs : list positive) (ws : Worksheet) : Worksheet :=
  foldl (λ w row, border_row row w) ws ((λ r, row_coords r n) <$> rs).

(** The cell [format_worksheet] leaves at a place. *)
Definition formatted_cell (ws : Worksheet) (rc : positive * positive) : Cell :=
  with_border thin_border
    (if decide (rc.1 = 1%positive) then style_header_cell (get_cell ws rc)
     else get_cell ws rc).

(** The width [format_worksheet] gives a column. *)
Definition column_width (E : Env) (ws : Worksheet) (c : positive) : Z :=
  Z.min (longest E ws (col_coords c (ws_max_row ws)) + 2) 50.


(** The summary worksheet after the title and the line of the date. *)
Definition summary_head (company now : string) : Worksheet :=
  put (VStr (generated_text now)) (3, 1)%positive
    (merge_A1_E1
       (restyle (with_font title_font) (1, 1)%positive
          (put (VStr (title_text company)) (1, 1)%positive empty_sheet))).

(** The summary worksheet after the block of the statistics. *)
Definition summary_block (company now : string) (total : nat) : Worksheet :=
  put (VStr (total_text total)) (6, 1)%positive
    (restyle (with_font bold_font) (5, 1)%positive
       (put (VStr statistics_text) (5, 1)%positive (summary_head company now))).

(** ** Predicates on worksheets and on the frames written to them *)

(** No cell of the worksheet is a merged cell. *)
Definition unmerged (ws : Worksheet) : Prop :=
  ∀ rc x, cells ws !! rc = Some x → merged x = false.

(** No merged cell in row 1. *)
Definition header_unmerged (ws : Worksheet) : Prop :=
  ∀ c, merged (get_cell ws (1%positive, c)) = false.

(** Every column of the worksheet has a letter. *)
Definition lettered (ws : Worksheet) : Prop :=
  (ws_max_column ws ≤ last_lettered_column)%positive.

(** No cell of the worksheet is to the right of column [n]. *)
Definition columns_upto (n : positive) (ws : Worksheet) : Prop :=
  ∀ rc, is_Some (cells ws !! rc) → (rc.2 ≤ n)%positive.

(** The frame has no more columns than have a letter. *)
Definition within_letters (data : DataFrame) : Prop :=
  Z.of_nat (length (columns data)) ≤ Z.pos last_lettered_column
  ∧ Forall (λ row : list pyval, Z.of_nat (length row) ≤ Z.pos last_lettered_column)
      (values data).

(** A value that a cell stores as it is. *)
Definition storable (v : pyval) : Prop := bind_value v = Ok v.

(** The column names and the cells of a frame are such values. *)
Definition storable_frame (data : DataFrame) : Prop :=
  Forall (λ t, storable (VStr t)) (columns data)
  ∧ Forall (Forall storable) (values data).

(** Every cell of [ws] is a cell of [ws'] and has the same value there. *)
Definition keeps_values (ws ws' : Worksheet) : Prop :=
  ∀ rc x, cells ws !! rc = Some x →
    ∃ x', cells ws' !! rc = Some x' ∧ value x' = value x.




(** ** Predicates on frames and rankings *)

(** Values that Python compares with each other: numbers, strings, or
    timestamps. *)
Inductive value_kind := Number | Text | Moment.

(** [v] is a value of kind [k]. *)
Definition of_kind (k : value_kind) (v : pyval) : Prop :=
  match k, v with
  | Number, (VInt _ | VFloat _) => True
  | Text, VStr _ => True
  | Moment, VDate _ => True
  | _, _ => False
  end.

(** The values that [min] and [max] compare in a column are of one kind. *)
Definition comparable (t : dtype) (xs : list pyval) : Prop :=
  ∃ k, ∀ filler, Forall (of_kind k) (compared filler t xs).









(** ** Frames, configurations and environments to run the program on *)

(** A configuration with every option on. *)
Definition demo_config : ReportConfig :=
  {| title := "Vendas"; output_path := "out/relatorio.xlsx";
     include_charts := true; include_summary := true; auto_format := true;
     company_name := "Empresa XYZ" |}.

(** The same without the summary sheet. *)
Definition no_summary_config : ReportConfig :=
  {| title := "Vendas"; output_path := "out/relatorio.xlsx";
     include_charts := true; include_summary := false; auto_format := true;
     company_name := "Empresa XYZ" |}.

(** An environment to run the program in: no statistics are looked at,
    floats print as [0.0], the clock reads new year's day, and the file
    system accepts every file. *)
Definition demo_env : Env :=
  {| Stats := unit; describe := λ _, (); float_str := λ _, "0.0";
     now_text := "01/01/2025 10:00"; persist := λ _ _, true |}.

(** A file system that refuses every file. *)
Definition read_only_env : Env :=
  {| Stats := unit; describe := λ _, (); float_str := λ _, "0.0";
     now_text := "01/01/2025 10:00"; persist := λ _ _, false |}.

(** The frame of the specification's ranking scenario. *)
Definition regions : DataFrame :=
  {| columns := ["region"; "amount"];
     dtypes := [object; int64];
     values := [[VStr "North"; VInt 100]; [VStr "South"; VInt 50];
                [VStr "North"; VInt 25]] |}.

(** Two regions with the same total, the later in the alphabet first. *)
Definition ties : DataFrame :=
  {| columns := ["region"; "amount"];
     dtypes := [object; int64];
     values := [[VStr "South"; VInt 50]; [VStr "North"; VInt 50]] |}.


(** A column name of 63 characters, and a frame whose only column has it. *)
Definition long_label : string :=
  "receita_liquida_acumulada_no_periodo_de_referencia_do_relatorio".

Definition long_header : DataFrame :=
  {| columns := [long_label]; dtypes := [int64]; values := [[VInt 1]] |}.


(** A frame without a [data] column. *)
Definition no_date : DataFrame :=
  {| columns := ["mes"; "receita"];
     dtypes := [object; int64];
     values := [[VStr "2024-01"; VInt 100]; [VStr "2024-02"; VInt 150]] |}.

(** A frame whose [data] column holds a string and an integer. *)
Definition mixed_date : DataFrame :=
  {| columns := ["data"];
     dtypes := [object];
     values := [[VStr "2024-01-01"]; [VInt 5]] |}.

(** The trend scenario of the specification: 100 in January (60 and 40)
    and 150 in February 2024. *)
Definition two_months : DataFrame :=
  {| columns := ["data"; "valor"];
     dtypes := [datetime64; int64];
     values := [[VDate (Date 2024 1 10); VInt 60]; [VDate (Date 2024 2 5); VInt 150];
                [VDate (Date 2024 1 25); VInt 40]] |}.


(** The generator after [add_worksheet('Vendas', regions)]. *)
Definition populated_regions : ExcelReportGenerator :=
  {| config := demo_config;
     objects := [sheet_of regions];
     workbook := Some [0%nat];
     worksheets := {["Vendas" := 0%nat]} |}.


(** ** Vocabulary of the further properties *)


(** A worksheet without charts and without merged ranges. *)
Definition plain (ws : Worksheet) : Prop := charts ws = [] ∧ merged_cells ws = [].

(** A generator whose only worksheet has no cell yet, as after
    [create_sheet], and one whose only worksheet is the summary worksheet
    with its merged title. *)
Definition untouched_state : ExcelReportGenerator :=
  {| config := demo_config;
     objects := [empty_sheet];
     workbook := Some [0%nat];
     worksheets := {["Vazia" := 0%nat]} |}.

Definition summary_state : ExcelReportGenerator :=
  {| config := demo_config;
     objects := [summary_head "Empresa XYZ" "01/01/2025 10:00"];
     workbook := Some [0%nat];
     worksheets := {[resumo_executivo := 0%nat]} |}.


(** The timestamps of a column, in order. *)
Definition dates_of (xs : list pyval) : list date :=
  omap (λ v, match v with VDate d => Some d | _ => None end) xs.




(** * Properties *)

(** ** Numbers and coordinates *)

Lemma elem_of_pos_upto (n c : positive) : c ∈ pos_upto n ↔ (c ≤ n)%positive.
Proof.
  unfold pos_upto. rewrite list_elem_of_fmap. split.
  - intros (j & -> & Hj). apply elem_of_seq in Hj. lia.
  - intros Hc. exists (Pos.to_nat c). split; [by rewrite Pos2Nat.id|].
    apply elem_of_seq. lia.
Qed.

Lemma elem_of_row_coords (r n : positive) (rc : positive * positive) :
  rc ∈ row_coords r n ↔ rc.1 = r ∧ (rc.2 ≤ n)%positive.
Proof.
  unfold row_coords. rewrite list_elem_of_fmap. destruct rc as [r' c']; simpl. split.
  - intros (c & [= -> ->] & Hc). by apply elem_of_pos_upto in Hc.
  - intros [-> Hc]. exists c'. by rewrite elem_of_pos_upto.
Qed.

Lemma elem_of_col_coords (c n : positive) (rc : positive * positive) :
  rc ∈ col_coords c n ↔ rc.2 = c ∧ (rc.1 ≤ n)%positive.
Proof.
  unfold col_coords. rewrite list_elem_of_fmap. destruct rc as [r' c']; simpl. split.
  - intros (r & [= -> ->] & Hr). by apply elem_of_pos_upto in Hr.
  - intros [-> Hr]. exists r'. by rewrite elem_of_pos_upto.
Qed.

(** [ws.max_row] bounds every cell and, unless the worksheet has no cell,
    is the row of one; the same for [ws.max_column]. *)
Section bounds.
Context (proj : positive * positive → positive).

Lemma ws_max_spec (cs : gmap (positive * positive) Cell) :
  (∀ rc x, cs !! rc = Some x → (proj rc ≤ ws_max proj cs)%positive)
  ∧ ((cs = ∅ ∧ ws_max proj cs = 1%positive)
     ∨ ∃ rc x, cs !! rc = Some x ∧ proj rc = ws_max proj cs).
Proof.
  unfold ws_max.
  apply (map_fold_weak_ind
    (λ m (cs : gmap (positive * positive) Cell),
       (∀ rc x, cs !! rc = Some x → (proj rc ≤ m)%positive)
       ∧ ((cs = ∅ ∧ m = 1%positive) ∨ ∃ rc x, cs !! rc = Some x ∧ proj rc = m))).
  - split; [intros rc x; by rewrite lookup_empty | by left].
  - intros rc x m r Hnone [Hub Hatt]. split.
    + intros rc' x'. rewrite lookup_insert. case_decide as Heq.
      * intros _. subst rc'. lia.
      * intros Hin. specialize (Hub _ _ Hin). lia.
    + right. destruct (decide (r ≤ proj rc)%positive) as [Hle|Hgt].
      * exists rc, x. rewrite lookup_insert_eq. split; [done | lia].
      * destruct Hatt as [[-> ->] | (rc' & x' & Hin & Hproj)]; [lia|].
        exists rc', x'. rewrite lookup_insert_ne; [|congruence].
        split; [done | lia].
Qed.

Lemma ws_max_eq (cs : gmap (positive * positive) Cell) (m : positive) :
  (∀ rc x, cs !! rc = Some x → (proj rc ≤ m)%positive) →
  (∃ rc x, cs !! rc = Some x ∧ proj rc = m) →
  ws_max proj cs = m.
Proof.
  intros Hub (rc & x & Hin & Hm).
  destruct (ws_max_spec cs) as [Hub' [[-> _] | (rc' & x' & Hin' & Hm')]].
  - by rewrite lookup_empty in Hin.
  - specialize (Hub _ _ Hin'). specialize (Hub' _ _ Hin). lia.
Qed.

End bounds.

(** ** Cells *)


Lemma get_cell_touch (rc rc' : positive * positive) (ws : Worksheet) :
  get_cell (touch rc ws) rc' = get_cell ws rc'.
Proof.
  unfold get_cell, touch; simpl. rewrite lookup_insert.
  case_decide; by subst.
Qed.

Lemma unmerged_get_cell (ws : Worksheet) (rc : positive * positive) :
  unmerged ws → merged (get_cell ws rc) = false.
Proof.
  intros Hws. unfold get_cell. destruct (cells ws !! rc) eqn:Hrc; simpl; [|done].
  by eapply Hws.
Qed.

Lemma unmerged_restyle (f : Cell → Cell) (rc : positive * positive) (ws : Worksheet) :
  (∀ x, merged (f x) = merged x) → unmerged ws → unmerged (restyle f rc ws).
Proof.
  intros Hf Hws rc' x. unfold restyle; simpl. rewrite lookup_insert.
  case_decide.
  - intros [= <-]. rewrite Hf. by apply unmerged_get_cell.
  - apply Hws.
Qed.

(** A value that a cell stores as it is goes into a cell that is not a
    merged one. *)
Lemma ws_cell_stores (r c : positive) (v : pyval) (ws : Worksheet) :
  merged (get_cell ws (r, c)) = false →
  storable v →
  ws_cell r c v ws = SheetOk (put v (r, c) ws).
Proof.
  intros Hm Hv. unfold ws_cell. cbv zeta.
  rewrite get_cell_touch, Hm.
  unfold put, put_cell. case_decide as Hnone; [done|].
  rewrite Hv. f_equal. unfold restyle. rewrite get_cell_touch.
  unfold touch, with_cells; simpl. f_equal. apply insert_insert_eq.
Qed.

Lemma ws_cell_unmerged (r c : positive) (v : pyval) (ws : Worksheet) :
  unmerged ws →
  storable v →
  ws_cell r c v ws = SheetOk (put v (r, c) ws) ∧ unmerged (put v (r, c) ws).
Proof.
  intros Hws Hv. split.
  - apply ws_cell_stores; [by apply unmerged_get_cell | done].
  - apply unmerged_restyle; [|done].
    intros x. unfold put_cell. by case_decide.
Qed.

Lemma elem_of_enumerate {A : Type} (xs : list A) :
  ∀ (start i : positive) (x : A), (i, x) ∈ enumerate start xs → x ∈ xs.
Proof.
  induction xs as [|y xs IH]; intros start i x Hin; simpl in Hin.
  - by apply elem_of_nil in Hin.
  - apply elem_of_cons in Hin as [[= _ ->]|Hin]; [by left|].
    right. by apply IH with (Pos.succ start) i.
Qed.

Lemma surjective_pairing_elem {A B : Type} (p : A * B) (l : list (A * B)) :
  p ∈ l → (p.1, p.2) ∈ l.
Proof. by destruct p. Qed.

(** A loop whose body cannot raise while an invariant holds is a fold. *)
Lemma for_each_fold {A : Type} (I : Worksheet → Prop)
    (body : A → Worksheet → sheet_outcome) (g : A → Worksheet → Worksheet)
    (l : list A) (ws : Worksheet) :
  (∀ a w, a ∈ l → I w → body a w = SheetOk (g a w) ∧ I (g a w)) →
  I ws →
  for_each body l ws = SheetOk (foldl (λ w a, g a w) ws l)
  ∧ I (foldl (λ w a, g a w) ws l).
Proof.
  revert ws. induction l as [|a l IH]; intros ws Hbody Hws; simpl; [done|].
  destruct (Hbody a ws) as [-> Hg]; [by left | done |].
  apply IH; [|done]. intros a' w Ha'. apply Hbody. by right.
Qed.




Lemma write_header_fold (names : list string) :
  ∀ (start : positive) (ws : Worksheet),
    foldl (λ w p, put (VStr p.2) (1%positive, p.1) w) ws (enumerate start names)
    = write_row 1 start (VStr <$> names) ws.
Proof.
  unfold write_row. induction names as [|n names IH]; intros start ws; simpl; [done|].
  apply IH.
Qed.

(** On a worksheet without merged cells the two loops of [add_worksheet]
    run to their end, for a frame of values that cells store as they are. *)
Lemma populate_unmerged (data : DataFrame) (ws : Worksheet) :
  unmerged ws →
  storable_frame data →
  sheet_bind (write_header data ws) (write_rows data)
  = SheetOk (write_block 2 (values data)
               (write_row 1 1 (VStr <$> columns data) ws))
  ∧ unmerged (write_block 2 (values data)
                (write_row 1 1 (VStr <$> columns data) ws)).
Proof.
  intros Hws [Hnames Hvalues]. unfold write_header, write_rows.
  rewrite Forall_forall in Hnames. rewrite Forall_forall in Hvalues.
  destruct (for_each_fold unmerged
              (λ p, ws_cell 1 p.1 (VStr p.2))
              (λ p, put (VStr p.2) (1%positive, p.1))
              (enumerate 1 (columns data)) ws) as [-> Hhead]; [|done|].
  { intros p w Hp Hw. apply ws_cell_unmerged; [done|].
    apply Hnames. by apply elem_of_enumerate with 1%positive p.1, surjective_pairing_elem. }
  rewrite write_header_fold in *. simpl.
  apply (for_each_fold unmerged
           (λ p, for_each (λ q, ws_cell p.1 q.1 q.2) (enumerate 1 p.2))
           (λ p, write_row p.1 1 p.2)); [|done].
  intros p w Hp Hw.
  assert (Forall storable p.2) as Hrow.
  { apply Hvalues. by apply elem_of_enumerate with 2%positive p.1, surjective_pairing_elem. }
  rewrite Forall_forall in Hrow.
  apply (for_each_fold unmerged
           (λ q, ws_cell p.1 q.1 q.2) (λ q, put q.2 (p.1, q.1))); [|done].
  intros q w' Hq Hw'. apply ws_cell_unmerged; [done|].
  apply Hrow. by apply elem_of_enumerate with 1%positive q.1, surjective_pairing_elem.
Qed.

Lemma insert_last (objs : list Worksheet) (ws ws' : Worksheet) :
  <[length objs := ws']> (objs ++ [ws]) = objs ++ [ws'].
Proof.
  replace (length objs) with (length objs + 0)%nat at 1 by lia.
  by rewrite insert_app_r.
Qed.

Lemma on_sheet_last (body : Worksheet → sheet_outcome) (cfg : ReportConfig)
    (objs : list Worksheet) (ws : Worksheet) (wb : option (list nat))
    (dict : gmap string nat) :
  on_sheet (length objs) body
    {| config := cfg; objects := objs ++ [ws]; workbook := wb; worksheets := dict |}
  = match body ws with
    | SheetOk ws' =>
        Returned () {| config := cfg; objects := objs ++ [ws'];
                       workbook := wb; worksheets := dict |}
    | SheetRaised e ws' =>
        Raised e {| config := cfg; objects := objs ++ [ws'];
                    workbook := wb; worksheets := dict |}
    end.
Proof.
  unfold on_sheet, with_objects; simpl.
  rewrite lookup_app_r, Nat.sub_diag by done. simpl.
  destruct (body ws); by rewrite insert_last.
Qed.

(** An invariant of the worksheet that every turn of a loop keeps, raising
    or not, holds of the worksheet that the loop leaves. *)
Lemma for_each_after {A : Type} (I : Worksheet → Prop)
    (body : A → Worksheet → sheet_outcome) (l : list A) :
  (∀ a w, a ∈ l → I w → I (sheet_after (body a w))) →
  ∀ ws, I ws → I (sheet_after (for_each body l ws)).
Proof.
  induction l as [|a l IH]; intros Hbody ws Hws; simpl; [done|].
  pose proof (Hbody a ws ltac:(by left) Hws) as Hstep.
  destruct (body a ws) as [ws'|e ws']; simpl in *; [|done].
  apply IH; [|done]. intros b w Hb. apply Hbody. by right.
Qed.

Lemma touch_restyle (rc : positive * positive) (ws : Worksheet) :
  touch rc ws = restyle (λ x, x) rc ws.
Proof. done. Qed.

(** [ws.cell] never makes a merged cell. *)
Lemma ws_cell_keeps_unmerged (r c : positive) (v : pyval) (ws : Worksheet) :
  unmerged ws → unmerged (sheet_after (ws_cell r c v ws)).
Proof.
  intros Hws.
  assert (unmerged (touch (r, c) ws)) as Htouch.
  { rewrite touch_restyle. by apply unmerged_restyle. }
  unfold ws_cell. cbv zeta. case_decide; [done|].
  destruct (merged (get_cell (touch (r, c) ws) (r, c))); [done|].
  destruct (bind_value v) as [v'|e]; simpl; [|done].
  by apply unmerged_restyle.
Qed.

(** [ws.cell] away from a place leaves the cell of the place as it is. *)
Lemma ws_cell_other (r c : positive) (v : pyval) (ws : Worksheet)
    (rc : positive * positive) :
  rc ≠ (r, c) → cells (sheet_after (ws_cell r c v ws)) !! rc = cells ws !! rc.
Proof.
  intros Hne. unfold ws_cell. cbv zeta.
  assert (cells (touch (r, c) ws) !! rc = cells ws !! rc) as Htouch.
  { unfold touch; simpl. by rewrite lookup_insert_ne. }
  case_decide; [done|].
  destruct (merged (get_cell (touch (r, c) ws) (r, c))); [done|].
  destruct (bind_value v) as [v'|e]; simpl; [|done].
  by rewrite !lookup_insert_ne.
Qed.

Lemma elem_of_enumerate_lt {A : Type} (xs : list A) :
  ∀ (start i : positive) (x : A),
    (i, x) ∈ enumerate start xs → Z.pos i < Z.pos start + Z.of_nat (length xs).
Proof.
  induction xs as [|y xs IH]; intros start i x Hin; simpl in Hin.
  - by apply elem_of_nil in Hin.
  - apply elem_of_cons in Hin as [[= -> _]|Hin]; [simpl; lia|].
    specialize (IH _ _ _ Hin). simpl. lia.
Qed.

(** [ws.cell] in a column up to [n] makes no cell to the right of [n]. *)
Lemma ws_cell_columns_upto (n r c : positive) (v : pyval) (ws : Worksheet) :
  (c ≤ n)%positive → columns_upto n ws →
  columns_upto n (sheet_after (ws_cell r c v ws)).
Proof.
  intros Hc Hws rc Hrc. destruct (decide (rc = (r, c))) as [->|Hne]; [done|].
  rewrite ws_cell_other in Hrc by done. by apply Hws.
Qed.

Lemma columns_upto_lettered (ws : Worksheet) :
  columns_upto last_lettered_column ws → lettered ws.
Proof.
  intros Hws. unfold lettered, ws_max_column.
  destruct (ws_max_spec snd (cells ws)) as [_ [[_ ->]|(rc & x & Hx & <-)]]; [done|].
  apply Hws. by exists x.
Qed.

Lemma sheet_after_bind (I : Worksheet → Prop) (m : sheet_outcome)
    (k : Worksheet → sheet_outcome) :
  I (sheet_after m) → (∀ w, I w → I (sheet_after (k w))) →
  I (sheet_after (sheet_bind m k)).
Proof. destruct m; simpl; auto. Qed.

(** Whatever the frame, the two loops of [add_worksheet] leave a worksheet
    without merged cells. *)
Lemma populate_keeps_unmerged (data : DataFrame) (ws : Worksheet) :
  unmerged ws →
  unmerged (sheet_after (sheet_bind (write_header data ws) (write_rows data))).
Proof.
  intros Hws. apply (sheet_after_bind unmerged).
  - apply (for_each_after unmerged); [|done].
    intros p w _ Hw. by apply ws_cell_keeps_unmerged.
  - intros w Hw. apply (for_each_after unmerged); [|done].
    intros p w' _ Hw'. apply (for_each_after unmerged); [|done].
    intros q w'' _ Hw''. by apply ws_cell_keeps_unmerged.
Qed.

(** The two loops of [add_worksheet] make no cell to the right of the
    columns of the frame. *)
Lemma populate_columns_upto (data : DataFrame) (ws : Worksheet) :
  within_letters data →
  columns_upto last_lettered_column ws →
  columns_upto last_lettered_column
    (sheet_after (sheet_bind (write_header data ws) (write_rows data))).
Proof.
  intros [Hnames Hrows] Hws. rewrite Forall_forall in Hrows.
  apply (sheet_after_bind (columns_upto last_lettered_column)).
  - apply (for_each_after (columns_upto last_lettered_column)); [|done].
    intros [c t] w Hp Hw. apply ws_cell_columns_upto; [|done].
    apply elem_of_enumerate_lt in Hp. simpl. lia.
  - intros w Hw. apply (for_each_after (columns_upto last_lettered_column)); [|done].
    intros [r row] w' Hp Hw'.
    apply (for_each_after (columns_upto last_lettered_column)); [|done].
    intros [c v] w'' Hq Hw''. apply ws_cell_columns_upto; [|done].
    apply elem_of_enumerate_lt in Hq. apply elem_of_enumerate in Hp.
    specialize (Hrows _ Hp). simpl in *. lia.
Qed.

Lemma state_after_on_sheet_last (body : Worksheet → sheet_outcome)
    (name : string) (ws : Worksheet) (wb : list nat) (self : ExcelReportGenerator) :
  state_after (on_sheet (length (objects self)) body (with_new_sheet name ws wb self))
  = with_new_sheet name (sheet_after (body ws)) wb self.
Proof.
  unfold with_new_sheet. rewrite on_sheet_last. by destruct (body ws).
Qed.

(** Whatever the frame, [add_worksheet] on a generator that has a workbook
    makes one new worksheet, last in the workbook and registered under the
    name, when the name can be a title; it has no merged cell, also when a cell refused its value, and its
    columns have letters when those of the frame have. *)
Lemma add_worksheet_after (name : string) (data : DataFrame)
    (self : ExcelReportGenerator) (wb : list nat) :
  workbook self = Some wb →
  valid_title name = true →
  ∃ ws, unmerged ws
        ∧ (within_letters data → lettered ws)
        ∧ state_after (add_worksheet name data self) = with_new_sheet name ws wb self.
Proof.
  intros Hwb Hname. unfold add_worksheet, create_sheet. rewrite Hwb, Hname. simpl.
  eexists. split_and!; [| |apply (state_after_on_sheet_last _ name empty_sheet wb self)].
  - apply populate_keeps_unmerged. intros rc x. simpl. by rewrite lookup_empty.
  - intros Hdata. apply columns_upto_lettered, populate_columns_upto; [done|].
    intros rc [x Hx]. simpl in Hx. by rewrite lookup_empty in Hx.
Qed.

(** ** [add_worksheet] (claim C1) *)







Lemma unmerged_empty_sheet : unmerged empty_sheet.
Proof. intros rc x. simpl. by rewrite lookup_empty. Qed.

(** For a name that can be a title and a frame of values that cells store
    as they are, [add_worksheet] on a generator that has a workbook makes one
    new worksheet, [sheet_of data], last in the workbook and registered under
    the name; no other worksheet changes. *)
Lemma add_worksheet_returns (name : string) (data : DataFrame)
    (self : ExcelReportGenerator) (wb : list nat) :
  workbook self = Some wb →
  valid_title name = true →
  storable_frame data →
  add_worksheet name data self
  = Returned () (with_new_sheet name (sheet_of data) wb self)
  ∧ unmerged (sheet_of data).
Proof.
  intros Hwb Hname Hdata. unfold add_worksheet, create_sheet. rewrite Hwb, Hname. simpl.
  destruct (populate_unmerged data empty_sheet unmerged_empty_sheet Hdata)
    as [Hpop Hun].
  split; [|done].
  unfold on_sheet; simpl.
  rewrite lookup_app_r, Nat.sub_diag by done. simpl.
  rewrite Hpop. unfold with_objects; simpl. do 2 f_equal.
  replace (length (objects self)) with (length (objects self) + 0)%nat at 1 by lia.
  by rewrite insert_app_r.
Qed.




(** ** [format_worksheet] (claims C4 and C5) *)

Lemma restyle_all_snoc (f : Cell → Cell) (l : list (positive * positive))
    (rc : positive * positive) (ws : Worksheet) :
  restyle_all f (l ++ [rc]) ws = restyle f rc (restyle_all f l ws).
Proof. unfold restyle_all. by rewrite foldl_snoc. Qed.

(** A change applied along a list of places: where it is applied twice it
    counts once, for the changes the program makes. *)
Lemma restyle_all_lookup (f : Cell → Cell) (l : list (positive * positive))
    (ws : Worksheet) (rc : positive * positive) :
  (∀ x, f (f x) = f x) →
  cells (restyle_all f l ws) !! rc
  = if decide (rc ∈ l) then Some (f (get_cell ws rc)) else cells ws !! rc.
Proof.
  intros Hf. induction l as [|a l IH] using rev_ind.
  - by rewrite decide_False by apply not_elem_of_nil.
  - rewrite restyle_all_snoc. unfold restyle at 1; simpl.
    rewrite lookup_insert. destruct (decide (a = rc)) as [Heq|Heq].
    + subst a. destruct (decide (rc ∈ l ++ [rc])) as [_|Hn]; [|set_solver].
      unfold get_cell at 1. rewrite IH.
      destruct (decide (rc ∈ l)); simpl; by rewrite ?Hf.
    + rewrite IH. destruct (decide (rc ∈ l)) as [Hin|Hin].
      * destruct (decide (rc ∈ l ++ [a])) as [_|Hn]; [done | set_solver].
      * destruct (decide (rc ∈ l ++ [a])) as [Hn|_]; [|done].
        apply elem_of_app in Hn as [Hn|Hn]; [done|].
        apply list_elem_of_singleton in Hn. congruence.
Qed.

Lemma restyle_all_other (f : Cell → Cell) (l : list (positive * positive))
    (ws : Worksheet) :
  column_dimensions (restyle_all f l ws) = column_dimensions ws
  ∧ charts (restyle_all f l ws) = charts ws
  ∧ merged_cells (restyle_all f l ws) = merged_cells ws.
Proof.
  induction l as [|a l IH] using rev_ind; [done|].
  rewrite restyle_all_snoc. by unfold restyle; simpl.
Qed.

Lemma get_cell_restyle_all (f : Cell → Cell) (l : list (positive * positive))
    (ws : Worksheet) (rc : positive * positive) :
  (∀ x, f (f x) = f x) →
  get_cell (restyle_all f l ws) rc
  = if decide (rc ∈ l) then f (get_cell ws rc) else get_cell ws rc.
Proof.
  intros Hf. unfold get_cell at 1. rewrite restyle_all_lookup by done.
  by case_decide.
Qed.

Lemma touch_all_restyle (l : list (positive * positive)) (ws : Worksheet) :
  touch_all l ws = restyle_all (λ x, x) l ws.
Proof. done. Qed.

Lemma touch_all_lookup (l : list (positive * positive)) (ws : Worksheet)
    (rc : positive * positive) :
  cells (touch_all l ws) !! rc
  = if decide (rc ∈ l) then Some (get_cell ws rc) else cells ws !! rc.
Proof. rewrite touch_all_restyle. by apply restyle_all_lookup. Qed.

Lemma get_cell_touch_all (l : list (positive * positive)) (ws : Worksheet)
    (rc : positive * positive) :
  get_cell (touch_all l ws) rc = get_cell ws rc.
Proof.
  rewrite touch_all_restyle, get_cell_restyle_all by done. by case_decide.
Qed.

(** Cells added within the bounds do not move the bounds. *)
Lemma ws_max_extend (proj : positive * positive → positive)
    (cs cs' : gmap (positive * positive) Cell) :
  (∀ rc, is_Some (cs !! rc) → is_Some (cs' !! rc)) →
  (∀ rc, is_Some (cs' !! rc) →
     is_Some (cs !! rc) ∨ (proj rc ≤ ws_max proj cs)%positive) →
  (cs = ∅ → ∃ rc, is_Some (cs' !! rc) ∧ proj rc = 1%positive) →
  ws_max proj cs' = ws_max proj cs.
Proof.
  intros Hsub Hnew Hempty.
  destruct (ws_max_spec proj cs) as [Hub Hatt].
  apply ws_max_eq.
  - intros rc x Hrc. destruct (Hnew rc) as [[y Hy] | Hle]; [by eexists | | done].
    by eapply Hub.
  - destruct Hatt as [[Hnil Hone] | (rc & x & Hrc & Hp)].
    + destruct (Hempty Hnil) as (rc & [x Hx] & Hp). exists rc, x. by rewrite Hone.
    + destruct (Hsub rc) as [y Hy]; [by eexists|]. by exists rc, y.
Qed.

Lemma pos_upto_head (n : positive) : ∃ rest, pos_upto n = 1%positive :: rest.
Proof.
  unfold pos_upto. destruct (Pos.to_nat n) as [|k] eqn:Hn; [lia|].
  simpl. by eexists.
Qed.

Lemma col_coords_head (c n : positive) : ∃ rest, col_coords c n = (1%positive, c) :: rest.
Proof.
  unfold col_coords. destruct (pos_upto_head n) as [rest ->]. simpl. by eexists.
Qed.

Lemma longest_ext (E : Env) (ws ws' : Worksheet) (col : list (positive * positive)) :
  (∀ rc, rc ∈ col → value (get_cell ws rc) = value (get_cell ws' rc)) →
  longest E ws col = longest E ws' col.
Proof.
  unfold longest. generalize 0. induction col as [|rc col IH]; intros acc Hext; [done|].
  simpl. rewrite (Hext rc) by by left.
  apply IH. intros rc' Hrc'. apply Hext. by right.
Qed.

Lemma get_cell_set_width (c : positive) (w : Z) (ws : Worksheet) (rc : positive * positive) :
  get_cell (set_width c w ws) rc = get_cell ws rc.
Proof. done. Qed.

Lemma fit_column_ok (E : Env) (c n : positive) (ws : Worksheet) :
  merged (get_cell ws (1%positive, c)) = false →
  (c ≤ last_lettered_column)%positive →
  fit_column E (col_coords c n) ws
  = SheetOk (set_width c (Z.min (longest E ws (col_coords c n) + 2) 50)
               (touch_all (col_coords c n) ws)).
Proof.
  intros Hhead Hletter. unfold fit_column.
  destruct (col_coords_head c n) as [rest Hcol].
  destruct (col_coords c n) as [|first col] eqn:Hc; [done|].
  injection Hcol as -> ->.
  rewrite get_cell_touch_all, Hhead.
  change ((1%positive, c).2) with c.
  rewrite (proj2 (Pos.ltb_ge last_lettered_column c)) by done.
  rewrite (longest_ext E (touch_all ((1%positive, c) :: rest) ws) ws); [done|].
  intros rc _. by rewrite get_cell_touch_all.
Qed.

(** The loop over the columns [cs], each with rows 1 .. n, when none of
    them starts with a merged cell and each has a letter: the cells of these
    columns exist afterwards, with their values and styles untouched, and
    each column has its width. *)
Lemma fit_columns_spec (E : Env) (n : positive) (cs : list positive) :
  ∀ ws : Worksheet,
    (∀ c, c ∈ cs → merged (get_cell ws (1%positive, c)) = false) →
    (∀ c, c ∈ cs → (c ≤ last_lettered_column)%positive) →
    ∃ ws',
      for_each (fit_column E) ((λ c, col_coords c n) <$> cs) ws = SheetOk ws'
      ∧ (∀ rc, cells ws' !! rc
               = if decide (rc.2 ∈ cs ∧ (rc.1 ≤ n)%positive)
                 then Some (get_cell ws rc) else cells ws !! rc)
      ∧ (∀ c, column_dimensions ws' !! c
              = if decide (c ∈ cs)
                then Some (Z.min (longest E ws (col_coords c n) + 2) 50)
                else column_dimensions ws !! c)
      ∧ charts ws' = charts ws
      ∧ merged_cells ws' = merged_cells ws.
Proof.
  induction cs as [|c cs IH]; intros ws Hhead Hletter.
  - exists ws. simpl. by split_and!.
  - set (col := col_coords c n).
    set (mid := set_width c (Z.min (longest E ws col + 2) 50) (touch_all col ws)).
    assert (∀ rc, get_cell mid rc = get_cell ws rc) as Hmid.
    { intros rc. unfold mid. by rewrite get_cell_set_width, get_cell_touch_all. }
    assert (fit_column E col ws = SheetOk mid) as Hstep.
    { apply fit_column_ok; [apply Hhead | apply Hletter]; by left. }
    destruct (IH mid) as (ws' & Hrun & Hcells & Hdims & Hcharts & Hmerged).
    { intros c' Hc'. rewrite Hmid. apply Hhead. by right. }
    { intros c' Hc'. apply Hletter. by right. }
    exists ws'. rewrite fmap_cons. simpl. fold col. rewrite Hstep.
    destruct (restyle_all_other (λ x, x) col ws) as (Hdm & Hch & Hmg).
    split_and!; [done | | | by rewrite Hcharts | by rewrite Hmerged].
    + intros rc. rewrite Hcells, Hmid.
      unfold mid; simpl. rewrite touch_all_lookup.
      destruct (decide (rc.2 ∈ cs ∧ (rc.1 ≤ n)%positive)) as [[Hin Hle]|Hno].
      * rewrite decide_True; [done|]. split; [by right | done].
      * destruct (decide (rc ∈ col)) as [Hcol|Hcol].
        -- apply elem_of_col_coords in Hcol as [Hc Hr].
           rewrite decide_True; [done|]. split; [rewrite Hc; by left | done].
        -- rewrite decide_False; [done|]. intros [Hin Hle]. apply Hcol.
           apply elem_of_col_coords. split; [|done].
           apply elem_of_cons in Hin as [Heq|Hin]; [done|]. by destruct Hno.
    + intros c'. rewrite Hdims. unfold mid; simpl.
      rewrite (longest_ext E mid ws) by (intros; by rewrite Hmid).
      destruct (decide (c' ∈ cs)) as [Hin|Hin].
      * rewrite decide_True; [done | by right].
      * rewrite lookup_insert. destruct (decide (c = c')) as [->|Hne].
        -- rewrite decide_True; [done | by left].
        -- rewrite (touch_all_restyle col ws), Hdm.
           rewrite decide_False; [done|]. intros Hc'.
           apply elem_of_cons in Hc' as [Heq|Hc']; [congruence | done].
Qed.

Lemma with_border_idem (b : Border) (x : Cell) :
  with_border b (with_border b x) = with_border b x.
Proof. done. Qed.

Lemma style_header_cell_idem (x : Cell) :
  style_header_cell (style_header_cell x) = style_header_cell x.
Proof. done. Qed.

Lemma border_rows_spec (n : positive) (rs : list positive) (ws : Worksheet) :
  (∀ rc, cells (border_rows n rs ws) !! rc
         = if decide (rc.1 ∈ rs ∧ (rc.2 ≤ n)%positive)
           then Some (with_border thin_border (get_cell ws rc)) else cells ws !! rc)
  ∧ column_dimensions (border_rows n rs ws) = column_dimensions ws
  ∧ charts (border_rows n rs ws) = charts ws
  ∧ merged_cells (border_rows n rs ws) = merged_cells ws.
Proof.
  induction rs as [|r rs IH] using rev_ind.
  - by split_and!.
  - unfold border_rows in *. rewrite fmap_app, foldl_app. simpl.
    set (w := foldl (λ w row, border_row row w) ws ((λ r, row_coords r n) <$> rs)) in *.
    destruct IH as (Hcells & Hdims & Hcharts & Hmerged).
    unfold border_row.
    destruct (restyle_all_other (with_border thin_border) (row_coords r n)
                (touch_all (row_coords r n) w)) as (-> & -> & ->).
    rewrite touch_all_restyle.
    destruct (restyle_all_other (λ x, x) (row_coords r n) w) as (-> & -> & ->).
    split_and!; [|done..].
    intros rc. rewrite restyle_all_lookup by apply with_border_idem.
    rewrite <- touch_all_restyle, get_cell_touch_all, touch_all_lookup.
    unfold get_cell at 1 2. rewrite Hcells.
    destruct (decide (rc ∈ row_coords r n)) as [Hrow|Hrow].
    + apply elem_of_row_coords in Hrow as [Hr Hc].
      rewrite (decide_True (P:=rc.1 ∈ rs ++ [r] ∧ _)).
      2:{ split; [|done]. apply elem_of_app. right. rewrite Hr. by left. }
      destruct (decide (rc.1 ∈ rs ∧ (rc.2 ≤ n)%positive)); simpl; [|done].
      by rewrite with_border_idem.
    + destruct (decide (rc.1 ∈ rs ∧ (rc.2 ≤ n)%positive)) as [[Hin Hle]|Hno].
      * rewrite decide_True; [done|]. split; [|done]. apply elem_of_app. by left.
      * rewrite decide_False; [done|]. intros [Hin Hle]. 
        apply elem_of_app in Hin as [Hin|Hin]; [by destruct Hno|].
        apply list_elem_of_singleton in Hin. apply Hrow.
        by apply elem_of_row_coords.
Qed.

Lemma size_cells_nonzero (ws : Worksheet) (rc : positive * positive) :
  is_Some (cells ws !! rc) → (size (cells ws) =? 0)%nat = false.
Proof.
  intros [x Hx]. apply Nat.eqb_neq. intros Hsize.
  apply map_size_empty_iff in Hsize. rewrite Hsize in Hx.
  by rewrite lookup_empty in Hx.
Qed.

(** The header pass: it adds cells in row 1 only, within the bounds. *)
Lemma style_header_spec (ws : Worksheet) :
  (∀ rc, cells (style_header ws) !! rc
         = if decide (rc.1 = 1%positive ∧ (rc.2 ≤ ws_max_column ws)%positive)
           then Some (style_header_cell (get_cell ws rc)) else cells ws !! rc)
  ∧ ws_max_row (style_header ws) = ws_max_row ws
  ∧ ws_max_column (style_header ws) = ws_max_column ws
  ∧ (size (cells (style_header ws)) =? 0)%nat = false
  ∧ column_dimensions (style_header ws) = column_dimensions ws
  ∧ charts (style_header ws) = charts ws
  ∧ merged_cells (style_header ws) = merged_cells ws.
Proof.
  assert (∀ rc, cells (style_header ws) !! rc
                = if decide (rc.1 = 1%positive ∧ (rc.2 ≤ ws_max_column ws)%positive)
                  then Some (style_header_cell (get_cell ws rc)) else cells ws !! rc)
    as Hcells.
  { intros rc. unfold style_header, ws_row_1.
    rewrite restyle_all_lookup by apply style_header_cell_idem.
    destruct (decide (rc ∈ row_coords 1 (ws_max_column ws))) as [Hin|Hin];
      rewrite elem_of_row_coords in Hin.
    - by rewrite decide_True.
    - by rewrite decide_False. }
  assert (∀ rc, is_Some (cells ws !! rc) → is_Some (cells (style_header ws) !! rc))
    as Hsub.
  { intros rc Hrc. rewrite Hcells. by case_decide. }
  assert (is_Some (cells (style_header ws) !! (1%positive, 1%positive))) as Hone.
  { rewrite Hcells, decide_True; [done|]. simpl. split; [done | lia]. }
  destruct (restyle_all_other style_header_cell (ws_row_1 ws) ws) as (Hd & Hc & Hm).
  split_and!; try done.
  - apply ws_max_extend; [done | | by exists (1%positive, 1%positive)].
    intros rc. rewrite Hcells. case_decide as Hin; [|by left].
    intros _. right. destruct Hin as [-> _]. lia.
  - apply ws_max_extend; [done | | by exists (1%positive, 1%positive)].
    intros rc. rewrite Hcells. case_decide as Hin; [|by left].
    intros _. right. by destruct Hin.
  - by eapply size_cells_nonzero.
Qed.

(** [format_worksheet] on a worksheet whose row 1 has no merged cell and
    whose columns have letters: it runs to its end; every place of the rectangle bounded by [max_row] and
    [max_column] then has a cell, bordered, and styled as a header in row 1;
    every column of the rectangle has its width. *)
Lemma format_sheet_spec (E : Env) (ws : Worksheet) :
  header_unmerged ws →
  lettered ws →
  ∃ ws',
    format_sheet E ws = SheetOk ws'
    ∧ (∀ rc, cells ws' !! rc
             = if decide ((rc.1 ≤ ws_max_row ws)%positive
                          ∧ (rc.2 ≤ ws_max_column ws)%positive)
               then Some (formatted_cell ws rc) else None)
    ∧ (∀ c, column_dimensions ws' !! c
            = if decide (c ≤ ws_max_column ws)%positive
              then Some (column_width E ws c) else column_dimensions ws !! c)
    ∧ charts ws' = charts ws
    ∧ merged_cells ws' = merged_cells ws.
Proof.
  intros Hhead Hletter.
  destruct (style_header_spec ws) as (H1 & Hr1 & Hc1 & Hs1 & Hd1 & Hch1 & Hm1).
  set (ws1 := style_header ws) in *.
  assert (∀ rc, get_cell ws1 rc
                = if decide (rc.1 = 1%positive ∧ (rc.2 ≤ ws_max_column ws)%positive)
                  then style_header_cell (get_cell ws rc) else get_cell ws rc) as Hg1.
  { intros rc. unfold get_cell at 1. rewrite H1. by case_decide. }
  destruct (fit_columns_spec E (ws_max_row ws) (pos_upto (ws_max_column ws)) ws1)
    as (ws2 & Hrun & H2 & Hd2 & Hch2 & Hm2).
  { intros c _. rewrite Hg1. case_decide; simpl; apply Hhead. }
  { intros c Hc. apply elem_of_pos_upto in Hc. unfold lettered in Hletter. lia. }
  assert (∀ rc, cells ws2 !! rc
                = if decide ((rc.1 ≤ ws_max_row ws)%positive
                             ∧ (rc.2 ≤ ws_max_column ws)%positive)
                  then Some (get_cell ws1 rc) else None) as H2'.
  { intros rc. rewrite H2.
    destruct (decide (rc.2 ∈ pos_upto (ws_max_column ws) ∧ (rc.1 ≤ ws_max_row ws)%positive))
      as [[Hc Hr]|Hno]; rewrite elem_of_pos_upto in *.
    - by rewrite decide_True.
    - rewrite decide_False by tauto.
      destruct (cells ws1 !! rc) as [x|] eqn:Hx; [exfalso | done].
      apply Hno. split.
      + rewrite <- Hc1. by apply (ws_max_spec snd (cells ws1)) with x.
      + rewrite <- Hr1. by apply (ws_max_spec fst (cells ws1)) with x. }
  assert (is_Some (cells ws2 !! (1%positive, 1%positive))) as Hone.
  { rewrite H2', decide_True; [done|]. simpl. lia. }
  assert (ws_max_row ws2 = ws_max_row ws) as Hr2.
  { apply ws_max_eq.
    - intros rc x. rewrite H2'. case_decide as Hin; [|done]. intros _. by destruct Hin.
    - exists (ws_max_row ws, 1%positive), (get_cell ws1 (ws_max_row ws, 1%positive)).
      split; [|done]. rewrite H2', decide_True; [done|]. simpl. lia. }
  assert (ws_max_column ws2 = ws_max_column ws) as Hc2.
  { apply ws_max_eq.
    - intros rc x. rewrite H2'. case_decide as Hin; [|done]. intros _. by destruct Hin.
    - exists (1%positive, ws_max_column ws), (get_cell ws1 (1%positive, ws_max_column ws)).
      split; [|done]. rewrite H2', decide_True; [done|]. simpl. lia. }
  destruct (border_rows_spec (ws_max_column ws) (pos_upto (ws_max_row ws)) ws2)
    as (H3 & Hd3 & Hch3 & Hm3).
  exists (border_rows (ws_max_column ws) (pos_upto (ws_max_row ws)) ws2).
  split_and!.
  - unfold format_sheet. fold ws1. unfold ws_columns.
    rewrite Hs1, Hr1, Hc1, Hrun. simpl. unfold ws_iter_rows.
    rewrite (size_cells_nonzero ws2 _ Hone), Hr2, Hc2. done.
  - intros rc. rewrite H3.
    destruct (decide (rc.1 ∈ pos_upto (ws_max_row ws) ∧ (rc.2 ≤ ws_max_column ws)%positive))
      as [[Hr Hc]|Hno]; rewrite elem_of_pos_upto in *.
    + rewrite decide_True by done. f_equal. unfold formatted_cell. f_equal.
      unfold get_cell at 1. rewrite H2', decide_True by done. simpl.
      rewrite Hg1. destruct (decide (rc.1 = 1%positive)) as [Heq|Hne].
      * by rewrite decide_True.
      * by rewrite decide_False by tauto.
    + rewrite H2'. by case_decide.
  - intros c. rewrite Hd3, Hd2, Hd1.
    destruct (decide (c ∈ pos_upto (ws_max_column ws))) as [Hc|Hc];
      rewrite elem_of_pos_upto in Hc.
    + rewrite decide_True by done. f_equal. unfold column_width. f_equal. f_equal.
      apply longest_ext. intros rc Hrc. rewrite Hg1. by case_decide.
    + by rewrite decide_False.
  - by rewrite Hch3, Hch2.
  - by rewrite Hm3, Hm2.
Qed.

Lemma worksheet_eq (ws ws' : Worksheet) :
  (∀ rc, cells ws !! rc = cells ws' !! rc) →
  (∀ c, column_dimensions ws !! c = column_dimensions ws' !! c) →
  charts ws = charts ws' →
  merged_cells ws = merged_cells ws' →
  ws = ws'.
Proof.
  destruct ws, ws'; simpl. intros Hc Hd -> ->.
  f_equal; by apply map_eq.
Qed.

Lemma formatted_cell_value (ws : Worksheet) (rc : positive * positive) :
  value (formatted_cell ws rc) = value (get_cell ws rc)
  ∧ merged (formatted_cell ws rc) = merged (get_cell ws rc).
Proof. unfold formatted_cell. by case_decide. Qed.

(** Formatting a formatted worksheet changes nothing. *)
Lemma format_sheet_idempotent (E : Env) (ws ws' : Worksheet) :
  header_unmerged ws →
  lettered ws →
  format_sheet E ws = SheetOk ws' →
  format_sheet E ws' = SheetOk ws'.
Proof.
  intros Hhead Hletter Hrun.
  destruct (format_sheet_spec E ws Hhead Hletter) as (ws0 & Hrun0 & Hc & Hd & Hch & Hm).
  rewrite Hrun in Hrun0. injection Hrun0 as <-.
  assert (∀ rc, get_cell ws' rc
                = if decide ((rc.1 ≤ ws_max_row ws)%positive
                             ∧ (rc.2 ≤ ws_max_column ws)%positive)
                  then formatted_cell ws rc else empty_cell) as Hg.
  { intros rc. unfold get_cell at 1. rewrite Hc. by case_decide. }
  assert (ws_max_row ws' = ws_max_row ws) as Hr'.
  { apply ws_max_eq.
    - intros rc x. rewrite Hc. case_decide as Hin; [|done]. intros _. by destruct Hin.
    - exists (ws_max_row ws, 1%positive), (formatted_cell ws (ws_max_row ws, 1%positive)).
      split; [|done]. rewrite Hc, decide_True; [done|]. simpl. lia. }
  assert (ws_max_column ws' = ws_max_column ws) as Hc'.
  { apply ws_max_eq.
    - intros rc x. rewrite Hc. case_decide as Hin; [|done]. intros _. by destruct Hin.
    - exists (1%positive, ws_max_column ws), (formatted_cell ws (1%positive, ws_max_column ws)).
      split; [|done]. rewrite Hc, decide_True; [done|]. simpl. lia. }
  destruct (format_sheet_spec E ws') as (ws'' & Hrun' & Hc'' & Hd'' & Hch'' & Hm'').
  { intros c. rewrite Hg. case_decide; [|done].
    destruct (formatted_cell_value ws (1%positive, c)) as [_ ->]. apply Hhead. }
  { unfold lettered. by rewrite Hc'. }
  rewrite Hrun'. f_equal. apply worksheet_eq; [| |congruence..].
  - intros rc. rewrite Hc'', Hc, Hr', Hc'.
    destruct (decide ((rc.1 ≤ ws_max_row ws)%positive
                      ∧ (rc.2 ≤ ws_max_column ws)%positive)) as [Hin|Hin]; [|done].
    f_equal. unfold formatted_cell at 1. rewrite Hg.
    destruct (decide ((rc.1 ≤ ws_max_row ws)%positive
                      ∧ (rc.2 ≤ ws_max_column ws)%positive)) as [_|Hout]; [|done].
    unfold formatted_cell. by case_decide.
  - intros c. rewrite Hd'', Hd, Hc'.
    destruct (decide (c ≤ ws_max_column ws)%positive) as [Hin|Hin]; [|done].
    f_equal. unfold column_width. rewrite Hr'. do 2 f_equal.
    apply longest_ext. intros rc Hrc. apply elem_of_col_coords in Hrc as [Hrc1 Hrc2].
    rewrite Hg.
    destruct (decide ((rc.1 ≤ ws_max_row ws)%positive
                      ∧ (rc.2 ≤ ws_max_column ws)%positive)) as [_|Hout].
    + apply formatted_cell_value.
    + destruct Hout. by rewrite Hrc1.
Qed.

Lemma for_each_app {A : Type} (body : A → Worksheet → sheet_outcome)
    (l1 l2 : list A) (ws : Worksheet) :
  for_each body (l1 ++ l2) ws = sheet_bind (for_each body l1 ws) (for_each body l2).
Proof.
  revert ws. induction l1 as [|a l1 IH]; intros ws; simpl; [done|].
  destruct (body a ws); simpl; [apply IH | done].
Qed.

Lemma pos_upto_split (k m : positive) :
  (k < m)%positive → ∃ rest, pos_upto m = pos_upto k ++ Pos.succ k :: rest.
Proof.
  intros Hkm. unfold pos_upto.
  replace (Pos.to_nat m)
    with (Pos.to_nat k + S (Pos.to_nat m - Pos.to_nat k - 1))%nat by lia.
  rewrite seq_app, fmap_app. simpl.
  eexists. f_equal. f_equal. lia.
Qed.

(** [format_worksheet] on a worksheet whose row 1 has no merged cell and
    which has a column without a letter: the header is styled, the columns
    that have letters get their widths, and the first column without one
    ends the call; its cells exist from then on. *)
Lemma format_sheet_unlettered (E : Env) (ws : Worksheet) :
  header_unmerged ws →
  ¬ lettered ws →
  ∃ ws',
    format_sheet E ws = SheetRaised ValueError ws'
    ∧ (∀ rc, cells ws' !! rc
             = if decide ((rc.1 ≤ ws_max_row ws)%positive
                          ∧ (rc.2 ≤ Pos.succ last_lettered_column)%positive)
               then Some (get_cell (style_header ws) rc)
               else cells (style_header ws) !! rc)
    ∧ (∀ c, column_dimensions ws' !! c
            = if decide (c ≤ last_lettered_column)%positive
              then Some (column_width E ws c) else column_dimensions ws !! c)
    ∧ charts ws' = charts ws
    ∧ merged_cells ws' = merged_cells ws.
Proof.
  intros Hhead Hletter. unfold lettered in Hletter.
  destruct (style_header_spec ws) as (H1 & Hr1 & Hc1 & Hs1 & Hd1 & Hch1 & Hm1).
  set (ws1 := style_header ws) in *.
  set (L := last_lettered_column) in *.
  set (n := ws_max_row ws) in *.
  assert (∀ rc, get_cell ws1 rc
                = if decide (rc.1 = 1%positive ∧ (rc.2 ≤ ws_max_column ws)%positive)
                  then style_header_cell (get_cell ws rc) else get_cell ws rc) as Hg1.
  { intros rc. unfold get_cell at 1. rewrite H1. by case_decide. }
  assert (∀ c, merged (get_cell ws1 (1%positive, c)) = false) as Hhead1.
  { intros c. rewrite Hg1. case_decide; simpl; apply Hhead. }
  destruct (pos_upto_split L (ws_max_column ws)) as [rest Hsplit]; [lia|].
  destruct (fit_columns_spec E n (pos_upto L) ws1) as (ws2 & Hrun & H2 & Hd2 & Hch2 & Hm2).
  { intros c _. apply Hhead1. }
  { intros c Hc. by apply elem_of_pos_upto in Hc. }
  assert (∀ rc, get_cell ws2 rc = get_cell ws1 rc) as Hg2.
  { intros rc. unfold get_cell at 1. rewrite H2. by case_decide. }
  set (col := col_coords (Pos.succ L) n).
  destruct (restyle_all_other (λ x, x) col ws2) as (Hdt & Hcht & Hmt).
  rewrite <- touch_all_restyle in Hdt, Hcht, Hmt.
  exists (touch_all col ws2). split_and!.
  - unfold format_sheet. fold ws1. unfold ws_columns.
    rewrite Hs1, Hr1, Hc1, Hsplit, fmap_app, for_each_app. fold n. rewrite Hrun.
    rewrite fmap_cons. cbn [sheet_bind for_each]. fold col.
    assert (fit_column E col ws2 = SheetRaised ValueError (touch_all col ws2)) as ->; [|done].
    unfold fit_column, col.
    destruct (col_coords_head (Pos.succ L) n) as [tail ->].
    rewrite get_cell_touch_all, Hg2, Hhead1.
    change ((1%positive, Pos.succ L).2) with (Pos.succ L). fold L.
    by rewrite (proj2 (Pos.ltb_lt L (Pos.succ L))) by lia.
  - intros rc. rewrite touch_all_lookup, Hg2, H2.
    destruct (decide (rc ∈ col)) as [Hin|Hin]; unfold col in Hin;
      rewrite elem_of_col_coords in Hin.
    + rewrite decide_True; [done|]. destruct Hin as [-> ?]. split; [done | lia].
    + destruct (decide (rc.2 ∈ pos_upto L ∧ (rc.1 ≤ n)%positive)) as [[Hc Hr]|Hno];
        rewrite elem_of_pos_upto in *.
      * rewrite decide_True; [done|]. split; [done | lia].
      * rewrite decide_False; [done|]. intros [Hr Hc].
        destruct (decide (rc.2 = Pos.succ L)) as [Heq|Hne]; [by destruct Hin|].
        apply Hno. split; [lia | done].
  - intros c. rewrite Hdt, Hd2, Hd1.
    destruct (decide (c ∈ pos_upto L)) as [Hc|Hc]; rewrite elem_of_pos_upto in Hc.
    + rewrite decide_True by done. f_equal. unfold column_width. f_equal. f_equal.
      apply longest_ext. intros rc Hrc. rewrite Hg1. by case_decide.
    + by rewrite decide_False.
  - by rewrite Hcht, Hch2.
  - by rewrite Hmt, Hm2.
Qed.

(** Formatting twice leaves the worksheet as formatting once leaves it,
    whether formatting returns or not. *)
Lemma format_sheet_after_idempotent (E : Env) (ws : Worksheet) :
  header_unmerged ws →
  sheet_after (format_sheet E (sheet_after (format_sheet E ws)))
  = sheet_after (format_sheet E ws).
Proof.
  intros Hhead. destruct (decide (lettered ws)) as [Hletter|Hletter].
  { destruct (format_sheet_spec E ws Hhead Hletter) as (ws' & Hrun & _).
    rewrite Hrun. simpl. by rewrite (format_sheet_idempotent E ws ws' Hhead Hletter Hrun). }
  destruct (format_sheet_unlettered E ws Hhead Hletter) as (ws' & Hrun & Hc & Hd & Hch & Hm).
  rewrite Hrun. cbn [sheet_after].
  destruct (style_header_spec ws) as (H1 & Hr1 & Hc1 & _).
  set (ws1 := style_header ws) in *.
  set (L := last_lettered_column) in *.
  unfold lettered in Hletter. fold L in Hletter.
  assert (∀ rc, get_cell ws1 rc
                = if decide (rc.1 = 1%positive ∧ (rc.2 ≤ ws_max_column ws)%positive)
                  then style_header_cell (get_cell ws rc) else get_cell ws rc) as Hg1.
  { intros rc. unfold get_cell at 1. rewrite H1. by case_decide. }
  assert (∀ rc, get_cell ws' rc = get_cell ws1 rc) as Hg.
  { intros rc. unfold get_cell at 1. rewrite Hc. by case_decide. }
  assert (ws_max_row ws' = ws_max_row ws) as Hr'.
  { apply ws_max_eq.
    - intros rc x. rewrite Hc. case_decide as Hin; [intros _; by destruct Hin|].
      intros Hx. rewrite <- Hr1. by apply (ws_max_spec fst (cells ws1)) with x.
    - exists (ws_max_row ws, 1%positive), (get_cell ws1 (ws_max_row ws, 1%positive)).
      split; [|done]. rewrite Hc, decide_True; [done|]. simpl. lia. }
  assert (ws_max_column ws' = ws_max_column ws) as Hc'.
  { apply ws_max_eq.
    - intros rc x. rewrite Hc. case_decide as Hin; [intros _; destruct Hin; lia|].
      intros Hx. rewrite <- Hc1. by apply (ws_max_spec snd (cells ws1)) with x.
    - exists (1%positive, ws_max_column ws), (get_cell ws1 (1%positive, ws_max_column ws)).
      split; [|done]. rewrite Hc. case_decide; [done|].
      rewrite H1, decide_True by (simpl; split; [done | lia]).
      by rewrite Hg1, decide_True by (simpl; split; [done | lia]). }
  assert (header_unmerged ws') as Hhead'.
  { intros c. rewrite Hg, Hg1. case_decide; simpl; apply Hhead. }
  assert (¬ lettered ws') as Hletter'.
  { unfold lettered. by rewrite Hc'. }
  destruct (format_sheet_unlettered E ws' Hhead' Hletter')
    as (ws'' & Hrun' & Hc'' & Hd'' & Hch'' & Hm'').
  rewrite Hrun'. cbn [sheet_after].
  assert (∀ rc, cells (style_header ws') !! rc = cells ws' !! rc) as Hfix.
  { intros rc. rewrite (proj1 (style_header_spec ws')), Hc', Hg, Hc.
    destruct (decide (rc.1 = 1%positive ∧ (rc.2 ≤ ws_max_column ws)%positive))
      as [Hrow|Hrow]; [|done].
    rewrite Hg1, decide_True by done. rewrite style_header_cell_idem.
    case_decide; [done|]. by rewrite H1, decide_True by done. }
  apply worksheet_eq; [| |congruence..].
  - intros rc. rewrite Hc'', Hr', Hfix. unfold get_cell at 1. rewrite Hfix.
    fold (get_cell ws' rc). rewrite Hg, Hc. fold L.
    by destruct (decide ((rc.1 ≤ ws_max_row ws)%positive ∧ (rc.2 ≤ Pos.succ L)%positive)).
  - intros c. rewrite Hd'', Hd.
    fold L. destruct (decide (c ≤ L)%positive) as [Hin|Hin]; [|done].
    f_equal. unfold column_width. rewrite Hr'. do 2 f_equal.
    apply longest_ext. intros rc Hrc. rewrite Hg, Hg1. by case_decide.
Qed.

(** [longest] is the largest length among the values that [str] accepts,
    and 0 when there is none. *)
Lemma longest_spec (E : Env) (ws : Worksheet) (col : list (positive * positive)) :
  0 ≤ longest E ws col
  ∧ (∀ rc s, rc ∈ col → py_str (float_str E) (value (get_cell ws rc)) = Some s →
       Z.of_nat (String.length s) ≤ longest E ws col)
  ∧ (longest E ws col = 0
     ∨ ∃ rc s, rc ∈ col ∧ py_str (float_str E) (value (get_cell ws rc)) = Some s
               ∧ longest E ws col = Z.of_nat (String.length s)).
Proof.
  unfold longest.
  set (step := λ (max_length : Z) (rc : positive * positive),
         match py_str (float_str E) (value (get_cell ws rc)) with
         | Some s =>
             if Z.of_nat (String.length s) >? max_length
             then Z.of_nat (String.length s) else max_length
         | None => max_length
         end).
  cut (∀ acc, acc ≤ foldl step acc col
        ∧ (∀ rc s, rc ∈ col → py_str (float_str E) (value (get_cell ws rc)) = Some s →
             Z.of_nat (String.length s) ≤ foldl step acc col)
        ∧ (foldl step acc col = acc
           ∨ ∃ rc s, rc ∈ col ∧ py_str (float_str E) (value (get_cell ws rc)) = Some s
                     ∧ foldl step acc col = Z.of_nat (String.length s))).
  { intros Hgen. destruct (Hgen 0) as (H0 & Hub & Hatt). done. }
  induction col as [|rc col IH]; intros acc; simpl.
  - split_and!; [lia | | by left]. intros rc s Hin. by apply elem_of_nil in Hin.
  - destruct (IH (step acc rc)) as (Hle & Hub & Hatt).
    assert (acc ≤ step acc rc) as Hstep.
    { unfold step. destruct (py_str _ _); [|lia]. destruct (_ >? _) eqn:Hgt; lia. }
    split_and!.
    + lia.
    + intros rc' s Hin Hs. apply elem_of_cons in Hin as [->|Hin]; [|by eapply Hub].
      assert (Z.of_nat (String.length s) ≤ step acc rc); [|lia].
      unfold step. rewrite Hs. destruct (_ >? _) eqn:Hgt; lia.
    + destruct Hatt as [Heq | (rc' & s & Hin & Hs & Heq)].
      * rewrite Heq. unfold step.
        destruct (py_str _ _) as [s|] eqn:Hs; [|by left].
        destruct (_ >? _) eqn:Hgt; [|by left].
        right. exists rc, s. split_and!; [by left | done | done].
      * right. exists rc', s. split_and!; [by right | done | done].
Qed.

Lemma unmerged_header (ws : Worksheet) : unmerged ws → header_unmerged ws.
Proof. intros Hws c. by apply unmerged_get_cell. Qed.

(** [format_worksheet] on a registered worksheet whose row 1 has no merged
    cell and whose columns have letters returns, and a second call changes
    nothing. *)
Lemma format_worksheet_twice (E : Env) (ws_name : string)
    (self : ExcelReportGenerator) (loc : nat) (ws : Worksheet) :
  worksheets self !! ws_name = Some loc →
  objects self !! loc = Some ws →
  header_unmerged ws →
  lettered ws →
  ∃ ws',
    format_sheet E ws = SheetOk ws'
    ∧ format_worksheet E ws_name self
      = Returned () (with_objects (<[loc := ws']> (objects self)) self)
    ∧ format_worksheet E ws_name (with_objects (<[loc := ws']> (objects self)) self)
      = Returned () (with_objects (<[loc := ws']> (objects self)) self).
Proof.
  intros Hname Hloc Hhead Hletter.
  destruct (format_sheet_spec E ws Hhead Hletter) as (ws' & Hrun & _).
  exists ws'. pose proof (lookup_lt_Some _ _ _ Hloc) as Hlt.
  unfold format_worksheet. simpl. rewrite Hname. unfold on_sheet.
  rewrite Hloc, Hrun. split_and!; [done..|]. simpl.
  rewrite list_lookup_insert_eq by done.
  rewrite (format_sheet_idempotent E ws ws' Hhead Hletter Hrun).
  unfold with_objects; simpl. by rewrite list_insert_insert_eq.
Qed.

Lemma state_after_format (E : Env) (name : string) (ws : Worksheet) (wb : list nat)
    (self : ExcelReportGenerator) :
  state_after (format_worksheet E name (with_new_sheet name ws wb self))
  = with_new_sheet name (sheet_after (format_sheet E ws)) wb self.
Proof.
  unfold format_worksheet.
  replace (worksheets (with_new_sheet name ws wb self) !! name)
    with (Some (length (objects self))) by (simpl; by rewrite lookup_insert_eq).
  apply state_after_on_sheet_last.
Qed.

(** C5: formatting is idempotent. For every populated worksheet, that is,
    in every state in which [add_worksheet] returns, a second
    [format_worksheet] leaves the generator, and so the fonts, fills,
    alignments, borders and widths of the worksheet, exactly as the first
    call left them; and both calls return when the columns of the frame are
    among those that have letters. *)
Theorem format_worksheet_idempotent (E : Env) (name : string) (data : DataFrame)
    (self populated_state : ExcelReportGenerator) :
  add_worksheet name data self = Returned () populated_state →
  state_after
    (format_worksheet E name (state_after (format_worksheet E name populated_state)))
  = state_after (format_worksheet E name populated_state)
  ∧ (within_letters data →
     ∃ formatted,
       format_worksheet E name populated_state = Returned () formatted
       ∧ format_worksheet E name formatted = Returned () formatted).
Proof.
  intros Hadd.
  destruct (workbook self) as [wb|] eqn:Hwb.
  2:{ unfold add_worksheet, create_sheet in Hadd. by rewrite Hwb in Hadd. }
  destruct (valid_title name) eqn:Hname.
  2:{ unfold add_worksheet, create_sheet in Hadd. by rewrite Hwb, Hname in Hadd. }
  destruct (add_worksheet_after name data self wb Hwb Hname)
    as (ws & Hun & Hletter & Hstate).
  rewrite Hadd in Hstate. simpl in Hstate. subst populated_state. split.
  { rewrite !state_after_format.
    by rewrite format_sheet_after_idempotent by by apply unmerged_header. }
  intros Hdata.
  destruct (format_worksheet_twice E name (with_new_sheet name ws wb self)
              (length (objects self)) ws)
    as (ws' & _ & Hfirst & Hsecond).
  - simpl. by rewrite lookup_insert_eq.
  - simpl. by rewrite lookup_app_r, Nat.sub_diag by done.
  - by apply unmerged_header.
  - by apply Hletter.
  - eexists. split; [apply Hfirst | apply Hsecond].
Qed.

Lemma format_worksheet_idempotent_witness :
  state_after
    (format_worksheet demo_env "Vendas"
       (state_after (format_worksheet demo_env "Vendas" populated_regions)))
  = state_after (format_worksheet demo_env "Vendas" populated_regions)
  ∧ (within_letters regions →
     ∃ formatted,
       format_worksheet demo_env "Vendas" populated_regions = Returned () formatted
       ∧ format_worksheet demo_env "Vendas" formatted = Returned () formatted).
Proof.
  apply (format_worksheet_idempotent demo_env "Vendas" regions
           (create_workbook (new_generator demo_config)) populated_regions).
  reflexivity.
Defined.

(** C4, as amended: [format_worksheet] on a registered worksheet whose row 1
    has no merged cell and whose columns are among those that have letters
    returns whatever the values are; every column [c] up
    to [max_column] gets the width [min(L + 2, 50)], where [L] is the largest
    length of [str] among the values of the column in rows 1 .. [max_row]
    that [str] accepts (a place without a cell counts as [None]), and 0 if
    [str] accepts none; so the width is at least [min(h + 2, 50)] for a
    header of length [h], hence at least [h] when [h] is at most 50; and
    every cell of the column, with a printable value or not, keeps its value
    and gets the thin border. *)
Theorem format_worksheet_widths (E : Env) (ws_name : string)
    (self : ExcelReportGenerator) (loc : nat) (ws : Worksheet) :
  worksheets self !! ws_name = Some loc →
  objects self !! loc = Some ws →
  header_unmerged ws →
  lettered ws →
  ∃ ws',
    format_worksheet E ws_name self
    = Returned () (with_objects (<[loc := ws']> (objects self)) self)
    ∧ ∀ c, (c ≤ ws_max_column ws)%positive →
        ∃ L,
          column_dimensions ws' !! c = Some (Z.min (L + 2) 50)
          ∧ 0 ≤ L
          ∧ (∀ r s, (r ≤ ws_max_row ws)%positive →
               py_str (float_str E) (value (get_cell ws (r, c))) = Some s →
               Z.of_nat (String.length s) ≤ L)
          ∧ (L = 0
             ∨ ∃ r s, (r ≤ ws_max_row ws)%positive
                      ∧ py_str (float_str E) (value (get_cell ws (r, c))) = Some s
                      ∧ L = Z.of_nat (String.length s))
          ∧ (∀ h, py_str (float_str E) (value (get_cell ws (1%positive, c))) = Some h →
               Z.min (Z.of_nat (String.length h) + 2) 50 ≤ Z.min (L + 2) 50)
          ∧ (∀ r, (r ≤ ws_max_row ws)%positive →
               ∃ x, cells ws' !! (r, c) = Some x
                    ∧ border x = Some thin_border
                    ∧ value x = value (get_cell ws (r, c))).
Proof.
  intros Hname Hloc Hhead Hletter.
  destruct (format_worksheet_twice E ws_name self loc ws Hname Hloc Hhead Hletter)
    as (ws' & Hrun & Hfirst & _).
  destruct (format_sheet_spec E ws Hhead Hletter) as (ws0 & Hrun0 & Hc & Hd & _).
  rewrite Hrun in Hrun0. injection Hrun0 as <-.
  exists ws'. split; [done|]. intros c Hcol.
  destruct (longest_spec E ws (col_coords c (ws_max_row ws))) as (H0 & Hub & Hatt).
  exists (longest E ws (col_coords c (ws_max_row ws))).
  assert (∀ r s, (r ≤ ws_max_row ws)%positive →
            py_str (float_str E) (value (get_cell ws (r, c))) = Some s →
            Z.of_nat (String.length s) ≤ longest E ws (col_coords c (ws_max_row ws)))
    as Hub'.
  { intros r s Hr Hs. apply (Hub (r, c)); [|done]. by apply elem_of_col_coords. }
  split_and!; [| done | done | | |].
  - by rewrite Hd, decide_True.
  - destruct Hatt as [?|(rc & s & Hin & Hs & Heq)]; [by left | right].
    apply elem_of_col_coords in Hin as [Hc2 Hr]. destruct rc as [r c']; simpl in *.
    subst c'. by exists r, s.
  - intros h Hh. specialize (Hub' 1%positive h (Pos.le_1_l _) Hh). lia.
  - intros r Hr. exists (formatted_cell ws (r, c)).
    rewrite Hc, decide_True by done. split_and!; [done | done |].
    apply formatted_cell_value.
Qed.

Lemma format_worksheet_widths_witness :
  ∃ ws',
    format_worksheet demo_env "Vendas" populated_regions
    = Returned () (with_objects (<[0%nat := ws']> (objects populated_regions))
                     populated_regions)
    ∧ ∀ c, (c ≤ ws_max_column (sheet_of regions))%positive →
        ∃ L,
          column_dimensions ws' !! c = Some (Z.min (L + 2) 50)
          ∧ 0 ≤ L
          ∧ (∀ r s, (r ≤ ws_max_row (sheet_of regions))%positive →
               py_str (float_str demo_env) (value (get_cell (sheet_of regions) (r, c)))
               = Some s →
               Z.of_nat (String.length s) ≤ L)
          ∧ (L = 0
             ∨ ∃ r s, (r ≤ ws_max_row (sheet_of regions))%positive
                      ∧ py_str (float_str demo_env)
                          (value (get_cell (sheet_of regions) (r, c))) = Some s
                      ∧ L = Z.of_nat (String.length s))
          ∧ (∀ h, py_str (float_str demo_env)
                    (value (get_cell (sheet_of regions) (1%positive, c))) = Some h →
               Z.min (Z.of_nat (String.length h) + 2) 50 ≤ Z.min (L + 2) 50)
          ∧ (∀ r, (r ≤ ws_max_row (sheet_of regions))%positive →
               ∃ x, cells ws' !! (r, c) = Some x
                    ∧ border x = Some thin_border
                    ∧ value x = value (get_cell (sheet_of regions) (r, c))).
Proof.
  apply (format_worksheet_widths demo_env "Vendas" populated_regions 0 (sheet_of regions)).
  - reflexivity.
  - reflexivity.
  - apply unmerged_header.
    apply (add_worksheet_returns "Vendas" regions
             (create_workbook (new_generator demo_config)) [] eq_refl eq_refl).
    split; repeat constructor.
  - by vm_compute.
Defined.

(** C4 fails as stated: the width is capped at 50, so a column whose header
    is longer than 50 characters is narrower than its header. *)
Lemma format_worksheet_long_header :
  ¬ (∀ (E : Env) (ws ws' : Worksheet) (c : positive) (h : string) (w : Z),
       format_sheet E ws = SheetOk ws' →
       py_str (float_str E) (value (get_cell ws (1%positive, c))) = Some h →
       column_dimensions ws' !! c = Some w →
       Z.of_nat (String.length h) ≤ w).
Proof.
  intros Hclaim.
  destruct (format_sheet demo_env (sheet_of long_header)) as [ws'|e ws'] eqn:Hrun;
    [|by vm_compute in Hrun].
  specialize (Hclaim demo_env (sheet_of long_header) ws' 1%positive long_label 50 Hrun eq_refl).
  assert (column_dimensions ws' !! 1%positive = Some 50) as Hw.
  { vm_compute in Hrun. injection Hrun as <-. reflexivity. }
  specialize (Hclaim Hw). vm_compute in Hclaim. by apply Hclaim.
Qed.

(** ** [add_chart] (claims C7 and C10) *)





(** The chart bound to the worksheet of [regions]: rows 1 to 4. *)
Example add_chart_regions :
  add_chart "Vendas" "line" "A1:B4" "Vendas" populated_regions
  = Returned ()
      (with_objects
         [with_chart
            {| kind := LineChart; chart_title := "Vendas"; chart_style := 10;
               data_ref := {| min_col := 1; min_row := 1; max_col := 2; max_row := 4 |};
               titles_from_data := true; anchor := "E2" |}
            (sheet_of regions)]
         populated_regions).
Proof. reflexivity. Qed.

Example add_chart_pie :
  add_chart "Vendas" "pie" "A1:B4" "Vendas" populated_regions
  = Returned () populated_regions.
Proof. reflexivity. Qed.

(** ** [get_summary_stats] (claim C6) *)

Lemma py_lt_of_kind (k : value_kind) (a b : pyval) :
  of_kind k a → of_kind k b → ∃ r, py_lt a b = Ok r.
Proof. destruct k, a, b; simpl; try done; by eexists. Qed.

Lemma reduce_min_of_kind (k : value_kind) (xs : list pyval) :
  ∀ acc, of_kind k acc → Forall (of_kind k) xs → ∃ v, reduce_min acc xs = Ok v.
Proof.
  induction xs as [|x xs IH]; intros acc Hacc Hxs; simpl; [by eexists|].
  apply Forall_cons in Hxs as [Hx Hxs].
  destruct (py_lt_of_kind k x acc Hx Hacc) as [r ->]. simpl.
  apply IH; [by destruct r | done].
Qed.

Lemma reduce_max_of_kind (k : value_kind) (xs : list pyval) :
  ∀ acc, of_kind k acc → Forall (of_kind k) xs → ∃ v, reduce_max acc xs = Ok v.
Proof.
  induction xs as [|x xs IH]; intros acc Hacc Hxs; simpl; [by eexists|].
  apply Forall_cons in Hxs as [Hx Hxs].
  destruct (py_lt_of_kind k acc x Hacc Hx) as [r ->]. simpl.
  apply IH; [by destruct r | done].
Qed.

Lemma series_min_comparable (t : dtype) (xs : list pyval) :
  comparable t xs → ∃ v, series_min t xs = Ok v.
Proof.
  intros [k Hk]. unfold series_min, series_reduce.
  destruct (forallb is_null xs); [by eexists|].
  specialize (Hk PrimFloat.infinity).
  destruct (compared _ t xs) as [|x rest]; [by eexists|].
  apply Forall_cons in Hk as [Hx Hrest]. by apply reduce_min_of_kind with k.
Qed.

Lemma series_max_comparable (t : dtype) (xs : list pyval) :
  comparable t xs → ∃ v, series_max t xs = Ok v.
Proof.
  intros [k Hk]. unfold series_max, series_reduce.
  destruct (forallb is_null xs); [by eexists|].
  specialize (Hk PrimFloat.neg_infinity).
  destruct (compared _ t xs) as [|x rest]; [by eexists|].
  apply Forall_cons in Hk as [Hx Hrest]. by apply reduce_max_of_kind with k.
Qed.

(** C6, as amended: [get_summary_stats] returns, without raising, for every
    frame whose [data] column is missing or holds values of one kind; the
    result carries the number of rows; the date range is [None] on both ends
    when the frame has no [data] column; the numeric summary is empty when
    the frame has no numeric column. *)
Theorem get_summary_stats_partial (E : Env) (data : DataFrame) :
  ("data" ∉ columns data
   ∨ comparable (column_dtype data "data") (column data "data")) →
  ∃ summary,
    get_summary_stats E data = Ok summary
    ∧ total_records summary = length (values data)
    ∧ ("data" ∉ columns data →
       date_range summary = {| start := VNone; end_ := VNone |})
    ∧ (select_dtypes_number data = [] → numeric_summary summary = []).
Proof.
  intros Hdata. unfold get_summary_stats.
  destruct (decide ("data" ∈ columns data)) as [Hin|Hout].
  - destruct Hdata as [Hout|Hcmp]; [done|].
    destruct (series_min_comparable _ _ Hcmp) as [first ->].
    destruct (series_max_comparable _ _ Hcmp) as [last ->]. simpl.
    eexists. split_and!; [done | done | done |].
    simpl. by intros ->.
  - simpl. eexists. split_and!; [done | done | done |].
    simpl. by intros ->.
Qed.

Lemma get_summary_stats_partial_witness :
  ∃ summary,
    get_summary_stats demo_env no_date = Ok summary
    ∧ total_records summary = length (values no_date)
    ∧ ("data" ∉ columns no_date →
       date_range summary = {| start := VNone; end_ := VNone |})
    ∧ (select_dtypes_number no_date = [] → numeric_summary summary = []).
Proof.
  apply (get_summary_stats_partial demo_env no_date).
  left. apply (bool_decide_eq_false_1 ("data" ∈ columns no_date)). reflexivity.
Defined.

(** C6 fails as stated: [min] over a [data] column that holds a string and
    an integer compares the two, which Python refuses. *)
Lemma get_summary_stats_raises :
  ¬ (∀ (E : Env) (data : DataFrame), ∃ summary, get_summary_stats E data = Ok summary).
Proof.
  intros Hclaim. destruct (Hclaim demo_env mixed_date) as [summary Hrun].
  by vm_compute in Hrun.
Qed.

(** ** The order of the group keys *)

Lemma date_leb_spec (a b : date) :
  date_leb a b = true
  ↔ year a < year b
    ∨ (year a = year b
       ∧ (month a < month b ∨ (month a = month b ∧ day a ≤ day b))).
Proof.
  unfold date_leb, date_ltb.
  rewrite negb_true_iff, !orb_false_iff, !andb_false_iff.
  rewrite !orb_false_iff, !andb_false_iff, !Z.ltb_ge, !Z.eqb_neq. lia.
Qed.


Lemma string_leb_trans (s t u : string) :
  String.leb s t = true → String.leb t u = true → String.leb s u = true.
Proof.
  intros Hst Htu. apply Is_true_true.
  apply Is_true_true in Hst, Htu.
  change (String.le s u). by transitivity t.
Qed.

#[global] Instance key_le_total : Total key_le.
Proof.
  intros a b. unfold key_le.
  destruct a as [| |x|f|s|d|r], b as [| |y|g|t|e|q]; simpl;
    try (by left); try (by right).
  - destruct (Z.leb_spec x y); [by left | right]. apply Z.leb_le. lia.
  - apply String.leb_total.
  - rewrite !date_leb_spec. lia.
Qed.

#[global] Instance key_le_trans : Transitive key_le.
Proof.
  intros a b c. unfold key_le.
  destruct a as [| |x|f|s|d|r], b as [| |y|g|t|e|q], c as [| |z|h|u|k|p]; simpl;
    try done.
  - rewrite !Z.leb_le. lia.
  - apply string_leb_trans.
  - rewrite !date_leb_spec. lia.
Qed.


Lemma key_lt_trans (a b c : pyval) : key_lt a b → key_lt b c → key_lt a c.
Proof.
  intros [Hab Hba] [Hbc Hcb]. split; [by transitivity b|].
  intros Hca. apply Hba. by transitivity c.
Qed.




(** ** [get_top_performers] (claim C2) *)

Lemma index_of_elem (name : string) (names : list string) :
  name ∈ names → ∃ i, index_of name names = Some i ∧ names !! i = Some name.
Proof.
  induction names as [|n names IH]; intros Hin; [by apply elem_of_nil in Hin|].
  simpl. destruct (decide (n = name)) as [->|Hne]; [by exists 0%nat|].
  apply elem_of_cons in Hin as [->|Hin]; [done|].
  destruct (IH Hin) as (i & -> & Hi). by exists (S i).
Qed.

(** In a well-formed frame a column has one conforming value per row. *)
Lemma column_conforms (data : DataFrame) (name : string) :
  well_formed data → name ∈ columns data →
  Forall (conforms (column_dtype data name)) (column data name)
  ∧ length (column data name) = length (values data).
Proof.
  intros [Hnames Hlen Hrows] Hin.
  destruct (index_of_elem name (columns data) Hin) as (i & Hidx & Hi).
  unfold column, column_dtype, column_at. rewrite Hidx. simpl.
  destruct (lookup_lt_is_Some_2 (dtypes data) i) as [t Ht].
  { rewrite Hlen. by eapply lookup_lt_Some. }
  rewrite Ht. simpl. split; [|by rewrite length_map].
  rewrite Forall_forall. intros v Hv.
  apply list_elem_of_fmap in Hv as (row & -> & Hrow).
  rewrite Forall_forall in Hrows. specialize (Hrows row Hrow).
  destruct (Forall2_lookup_l _ _ _ _ _ Hrows Ht) as (v & -> & Hv). done.
Qed.


Lemma wrap64_in_range (z : Z) : in_int64 z → wrap64 z = z.
Proof.
  unfold in_int64, wrap64. intros Hz.
  rewrite Z.mod_small; lia.
Qed.











(** The ranking scenario of the specification. *)
Example get_top_performers_regions :
  get_top_performers regions "region" "amount" 5
  = Ok {| columns := ["region"; "amount"];
          dtypes := [object; int64];
          values := [[VStr "North"; VInt 125]; [VStr "South"; VInt 50]] |}.
Proof. by vm_compute. Qed.


(** ** [get_trend_analysis] (claim C3) *)








Example get_trend_analysis_two_months :
  get_trend_analysis two_months "data" "valor"
  = Ok {| columns := ["data"; "valor"; "growth_rate"];
          dtypes := [datetime64; int64; float64];
          values := [[VDate (Date 2024 1 31); VInt 100; VFloat PrimFloat.nan];
                     [VDate (Date 2024 2 29); VInt 150; VFloat 50%float]] |}.
Proof. by vm_compute. Qed.



(** ** A merged cell in row 1 *)

(** A loop raises when one turn of it raises in every state that the turns
    before it can leave. *)
Lemma for_each_raises {A : Type} (I : Worksheet → Prop)
    (body : A → Worksheet → sheet_outcome) (a : A) (l : list A) :
  a ∈ l →
  (∀ w, I w → ∃ e w', body a w = SheetRaised e w') →
  (∀ b w, I w → I (sheet_after (body b w))) →
  ∀ ws, I ws → ∃ e w', for_each body l ws = SheetRaised e w'.
Proof.
  intros Hin Hraise Hkeep.
  induction l as [|b l IH]; intros ws Hws; [by apply elem_of_nil in Hin|].
  simpl. apply elem_of_cons in Hin as [<-|Hin].
  - destruct (Hraise ws Hws) as (e & w' & ->). by eexists _, _.
  - specialize (Hkeep b ws Hws). destruct (body b ws) as [w'|e w']; simpl in Hkeep.
    + by apply IH.
    + by eexists _, _.
Qed.

(** [format_worksheet] raises on a worksheet that has a merged cell in row
    1: the loop over the columns asks that cell for its [column_letter]. *)
Lemma format_sheet_merged_raises (E : Env) (ws : Worksheet) (c : positive) (x : Cell) :
  cells ws !! (1%positive, c) = Some x →
  merged x = true →
  ∃ e ws', format_sheet E ws = SheetRaised e ws'.
Proof.
  intros Hx Hm. unfold format_sheet. cbv zeta.
  destruct (style_header_spec ws) as (Hcells & Hrow & Hcol & Hsize & _).
  assert (c ≤ ws_max_column ws)%positive as Hc.
  { apply (proj1 (ws_max_spec snd (cells ws)) (1%positive, c) x Hx). }
  set (I := λ w : Worksheet, merged (get_cell w (1%positive, c)) = true).
  assert (I (style_header ws)) as Hstyled.
  { unfold I, get_cell. rewrite Hcells, decide_True by done. simpl.
    unfold get_cell. by rewrite Hx. }
  destruct (for_each_raises I (fit_column E)
              (col_coords c (ws_max_row (style_header ws)))
              (ws_columns (style_header ws))) with (ws := style_header ws)
    as (e & w' & ->); [| | | done | by eexists _, _].
  - unfold ws_columns. rewrite Hsize, Hcol. apply list_elem_of_fmap.
    exists c. split; [done|]. by apply elem_of_pos_upto.
  - intros w Hw. unfold fit_column.
    destruct (col_coords_head c (ws_max_row (style_header ws))) as [rest ->].
    rewrite get_cell_touch_all, Hw. by eexists _, _.
  - intros col w Hw. unfold I, fit_column. destruct col as [|first col]; [done|].
    destruct (merged (get_cell (touch_all (first :: col) w) first));
      [unfold sheet_after; by rewrite get_cell_touch_all|].
    destruct (last_lettered_column <? first.2)%positive; unfold sheet_after.
    + by rewrite get_cell_touch_all.
    + by rewrite get_cell_set_width, get_cell_touch_all.
Qed.

#[global] Instance keeps_values_refl : Reflexive keeps_values.
Proof. intros ws rc x Hx. by exists x. Qed.

#[global] Instance keeps_values_trans : Transitive keeps_values.
Proof.
  intros ws1 ws2 ws3 H12 H23 rc x Hx.
  destruct (H12 rc x Hx) as (x2 & Hx2 & Hv2).
  destruct (H23 rc x2 Hx2) as (x3 & Hx3 & Hv3).
  exists x3. split; [done | congruence].
Qed.

Lemma keeps_values_restyle (f : Cell → Cell) (rc : positive * positive) (ws : Worksheet) :
  (∀ x, value (f x) = value x) → keeps_values ws (restyle f rc ws).
Proof.
  intros Hf rc' x Hx. unfold restyle; simpl. rewrite lookup_insert.
  case_decide as Heq; [|by exists x].
  subst rc'. eexists. split; [done|].
  rewrite Hf. unfold get_cell. by rewrite Hx.
Qed.

Lemma keeps_values_restyle_all (f : Cell → Cell) (l : list (positive * positive)) :
  (∀ x, value (f x) = value x) → ∀ ws, keeps_values ws (restyle_all f l ws).
Proof.
  intros Hf. induction l as [|rc l IH]; intros ws; simpl; [done|].
  etrans; [by apply (keeps_values_restyle f rc)|]. apply IH.
Qed.

Lemma keeps_values_fit_column (E : Env) (col : list (positive * positive))
    (ws : Worksheet) :
  keeps_values ws (sheet_after (fit_column E col ws)).
Proof.
  assert (keeps_values ws (touch_all col ws)) as Htouch.
  { rewrite touch_all_restyle. by apply keeps_values_restyle_all. }
  unfold fit_column. destruct col as [|first col]; [done|].
  destruct (merged (get_cell (touch_all (first :: col) ws) first)); [done|].
  by destruct (last_lettered_column <? first.2)%positive.
Qed.

Lemma keeps_values_border_row (row : list (positive * positive)) (ws : Worksheet) :
  keeps_values ws (border_row row ws).
Proof.
  unfold border_row. etrans; [|by apply keeps_values_restyle_all].
  rewrite touch_all_restyle. by apply keeps_values_restyle_all.
Qed.

(** [format_worksheet] changes no value, whether it returns or raises. *)
Lemma keeps_values_format_sheet (E : Env) (ws : Worksheet) :
  keeps_values ws (sheet_after (format_sheet E ws)).
Proof.
  unfold format_sheet. cbv zeta.
  assert (keeps_values ws (style_header ws)) as Hstyled.
  { by apply keeps_values_restyle_all. }
  apply (sheet_after_bind (keeps_values ws)).
  - apply (for_each_after (keeps_values ws)); [|done].
    intros col w _ Hw. etrans; [done|]. apply keeps_values_fit_column.
  - intros w Hw. simpl. generalize (ws_iter_rows w). intros rows.
    revert w Hw. induction rows as [|row rows IH]; intros w Hw; simpl; [done|].
    apply IH. etrans; [done|]. apply keeps_values_border_row.
Qed.

(** ** [generate_complete_report] (claims C8 and C9) *)

(** One turn of the loop over the datasets raises at once when the name
    cannot be a title. *)
Lemma data_sheet_refused (E : Env) (name : string) (data : DataFrame)
    (self : ExcelReportGenerator) (wb : list nat) :
  workbook self = Some wb →
  valid_title name = false →
  and_then (add_worksheet name data self) (λ _ self,
    if auto_format (config self) then format_worksheet E name self
    else Returned () self)
  = Raised ValueError self.
Proof.
  intros Hwb Hname. unfold add_worksheet, create_sheet. by rewrite Hwb, Hname.
Qed.

(** Otherwise, whether it returns or raises, the workbook has one worksheet
    more. *)
Lemma data_sheet_after (E : Env) (name : string) (data : DataFrame)
    (self : ExcelReportGenerator) (wb : list nat) :
  workbook self = Some wb →
  valid_title name = true →
  ∃ ws,
    state_after
      (and_then (add_worksheet name data self) (λ _ self,
         if auto_format (config self) then format_worksheet E name self
         else Returned () self))
    = with_new_sheet name ws wb self.
Proof.
  intros Hwb Hname.
  destruct (add_worksheet_after name data self wb Hwb Hname) as (ws & _ & _ & Hstate).
  destruct (add_worksheet name data self) as [[] s|e s]; simpl in Hstate; subst s;
    [|by eexists].
  unfold and_then.
  destruct (auto_format (config (with_new_sheet name ws wb self))); [|by eexists].
  eexists. apply state_after_format.
Qed.


Lemma and_then_assoc {A B C : Type} (m : outcome A)
    (k : A → ExcelReportGenerator → outcome B)
    (h : B → ExcelReportGenerator → outcome C) :
  and_then (and_then m k) h = and_then m (λ a self, and_then (k a self) h).
Proof. by destruct m. Qed.

(** When the loop over the datasets runs to its end, it has added one
    worksheet per dataset to the workbook, in order. *)
Lemma add_data_sheets_returned (E : Env) (items : list (string * DataFrame)) :
  ∀ (self s : ExcelReportGenerator) (wb : list nat),
    workbook self = Some wb →
    add_data_sheets E items self = Returned () s →
    config s = config self
    ∧ workbook s = Some (wb ++ seq (length (objects self)) (length items))
    ∧ length (objects s) = (length (objects self) + length items)%nat.
Proof.
  induction items as [|[name data] items IH]; intros self s wb Hwb Hrun; simpl in Hrun.
  - injection Hrun as <-. rewrite app_nil_r. split_and!; [done | done | simpl; lia].
  - rewrite <- and_then_assoc in Hrun.
    destruct (valid_title name) eqn:Hname.
    2:{ by rewrite (data_sheet_refused E name data self wb Hwb Hname) in Hrun. }
    destruct (data_sheet_after E name data self wb Hwb Hname) as [ws Hstate].
    destruct (and_then (add_worksheet name data self) _) as [[] s1|e s1];
      simpl in Hstate, Hrun; [|done].
    subst s1.
    destruct (IH (with_new_sheet name ws wb self) s
                (wb ++ [length (objects self)]) eq_refl Hrun)
      as (Hcfg & Hwb' & Hlen).
    simpl in *. rewrite length_app in *. simpl in *.
    split_and!; [done | | lia].
    rewrite Hwb', <- app_assoc. simpl. by rewrite Nat.add_1_r.
Qed.


Lemma summary_head_run (company now : string) :
  storable (VStr (title_text company)) →
  storable (VStr (generated_text now)) →
  sheet_bind (ws_cell 1 1 (VStr (title_text company)) empty_sheet) (λ ws,
    ws_cell 3 1 (VStr (generated_text now))
      (merge_A1_E1 (restyle (with_font title_font) (1, 1)%positive ws)))
  = SheetOk (summary_head company now).
Proof.
  intros Htitle Hnow.
  rewrite (ws_cell_stores 1 1 _ empty_sheet) by done.
  unfold sheet_bind. by rewrite ws_cell_stores.
Qed.

Lemma summary_block_run (company now : string) (total : nat) :
  storable (VStr (total_text total)) →
  sheet_bind (ws_cell 5 1 (VStr statistics_text) (summary_head company now)) (λ ws,
    ws_cell 6 1 (VStr (total_text total))
      (restyle (with_font bold_font) (5, 1)%positive ws))
  = SheetOk (summary_block company now total).
Proof.
  intros Htotal.
  rewrite (ws_cell_stores 5 1 _ (summary_head company now)) by done.
  unfold sheet_bind. by rewrite ws_cell_stores.
Qed.

Lemma summary_block_total (company now : string) (total : nat) :
  ∃ x, cells (summary_block company now total) !! (6, 1)%positive = Some x
       ∧ value x = VStr (total_text total).
Proof.
  eexists. split; [apply lookup_insert_eq|].
  unfold put_cell. by rewrite decide_False.
Qed.

Lemma summary_head_merged (ws : Worksheet) :
  cells (merge_A1_E1 ws) !! (1, 2)%positive = Some merged_cell.
Proof.
  unfold merge_A1_E1; simpl.
  rewrite !lookup_insert_ne by done. apply lookup_insert_eq.
Qed.

Lemma on_sheet_new (body : Worksheet → sheet_outcome) (name : string)
    (ws : Worksheet) (wb : list nat) (self : ExcelReportGenerator) :
  on_sheet (length (objects self)) body (with_new_sheet name ws wb self)
  = match body ws with
    | SheetOk ws' => Returned () (with_new_sheet name ws' wb self)
    | SheetRaised e ws' => Raised e (with_new_sheet name ws' wb self)
    end.
Proof. apply on_sheet_last. Qed.

(** The line of the period, whether it is written or not, changes no other
    line of the summary worksheet. *)
Lemma summary_period_after (summary_start summary_end : pyval) (ws : Worksheet)
    (wb : list nat) (self : ExcelReportGenerator) :
  ∃ ws',
    state_after
      (if py_truthy summary_start then
         and_then (lift (py_strftime summary_start)
                     (with_new_sheet resumo_executivo ws wb self)) (λ first self',
         and_then (lift (py_strftime summary_end) self') (λ last self',
         on_sheet (length (objects self))
           (ws_cell 7 1 (VStr (period_text first last))) self'))
       else Returned () (with_new_sheet resumo_executivo ws wb self))
    = with_new_sheet resumo_executivo ws' wb self
    ∧ ∀ rc, rc ≠ (7, 1)%positive → cells ws' !! rc = cells ws !! rc.
Proof.
  destruct (py_truthy summary_start); [|by exists ws].
  destruct (py_strftime summary_start) as [first|e]; [|by exists ws].
  destruct (py_strftime summary_end) as [last|e]; [|by exists ws].
  cbn [lift and_then]. rewrite on_sheet_new.
  exists (sheet_after (ws_cell 7 1 (VStr (period_text first last)) ws)). split.
  - by destruct (ws_cell 7 1 (VStr (period_text first last)) ws).
  - intros rc Hrc. by apply ws_cell_other.
Qed.

(** Formatting the summary worksheet raises: [B1], the first cell of the
    second column, is a merged cell. The values stay. *)
Lemma format_summary_raises (E : Env) (m : outcome unit) (ws : Worksheet)
    (wb : list nat) (self : ExcelReportGenerator) :
  state_after m = with_new_sheet resumo_executivo ws wb self →
  cells ws !! (1, 2)%positive = Some merged_cell →
  ∃ e ws',
    and_then m (λ _ self', format_worksheet E resumo_executivo self')
    = Raised e (with_new_sheet resumo_executivo ws' wb self)
    ∧ keeps_values ws ws'.
Proof.
  intros Hstate Hmerged.
  destruct m as [[] s|e s]; simpl in Hstate; subst s; cbn [and_then].
  2:{ by exists e, ws. }
  pose proof (state_after_format E resumo_executivo ws wb self) as Hafter.
  pose proof (keeps_values_format_sheet E ws) as Hkeeps.
  destruct (format_sheet_merged_raises E ws 2 merged_cell Hmerged eq_refl)
    as (e & ws' & Hraise).
  rewrite Hraise in Hafter, Hkeeps. simpl in Hafter, Hkeeps.
  unfold format_worksheet in *.
  replace (worksheets (with_new_sheet resumo_executivo ws wb self) !! resumo_executivo)
    with (Some (length (objects self))) in *
    by (simpl; by rewrite lookup_insert_eq).
  rewrite on_sheet_new, Hraise. by exists e, ws'.
Qed.

(** [add_summary_sheet] on a generator that has a workbook: it adds the
    summary worksheet to the workbook and then raises, at the latest when it
    formats the worksheet. When the statistics could be computed and the
    lines are strings that a cell stores as they are, the worksheet carries
    the line of the total. *)
Lemma add_summary_sheet_raises (E : Env) (analyzer : DataFrame)
    (self : ExcelReportGenerator) (wb : list nat) :
  workbook self = Some wb →
  ∃ e ws,
    add_summary_sheet E analyzer self
    = Raised e (with_new_sheet resumo_executivo ws wb self)
    ∧ ∀ summary,
        get_summary_stats E analyzer = Ok summary →
        storable (VStr (title_text (company_name (config self)))) →
        storable (VStr (generated_text (now_text E))) →
        storable (VStr (total_text (total_records summary))) →
        ∃ x, cells ws !! (6, 1)%positive = Some x
             ∧ value x = VStr (total_text (total_records summary)).
Proof.
  intros Hwb. unfold add_summary_sheet, create_sheet. rewrite Hwb.
  replace (valid_title resumo_executivo) with true by done.
  unfold and_then at 1.
  change {| config := config self;
            objects := objects self ++ [empty_sheet];
            workbook := Some (wb ++ [length (objects self)]);
            worksheets := <[resumo_executivo := length (objects self)]> (worksheets self) |}
    with (with_new_sheet resumo_executivo empty_sheet wb self).
  change (config (with_new_sheet resumo_executivo empty_sheet wb self))
    with (config self).
  set (company := company_name (config self)).
  rewrite on_sheet_new.
  pose proof (summary_head_run company (now_text E)) as Hhead.
  destruct (ws_cell 1 1 (VStr (title_text company)) empty_sheet)
    as [ws1|e1 ws1] eqn:H1; cbn [sheet_bind and_then] in *.
  2:{ exists e1, ws1. split; [done|]. intros summary _ Ht Hg _.
      by specialize (Hhead Ht Hg). }
  pose proof (ws_cell_other 3 1 (VStr (generated_text (now_text E)))
                (merge_A1_E1 (restyle (with_font title_font) (1, 1)%positive ws1))
                (1, 2)%positive ltac:(done)) as HB3.
  rewrite summary_head_merged in HB3.
  destruct (ws_cell 3 1 (VStr (generated_text (now_text E)))
              (merge_A1_E1 (restyle (with_font title_font) (1, 1)%positive ws1)))
    as [ws3|e3 ws3] eqn:H3; cbn [sheet_bind and_then sheet_after] in *.
  2:{ exists e3, ws3. split; [done|]. intros summary _ Ht Hg _.
      by specialize (Hhead Ht Hg). }
  destruct (get_summary_stats E analyzer) as [summary|e] eqn:Hstats;
    cbn [lift and_then].
  2:{ exists e, ws3. split; [done|]. by intros summary. }
  rewrite on_sheet_new.
  set (total := total_records summary).
  pose proof (ws_cell_other 5 1 (VStr statistics_text) ws3 (1, 2)%positive ltac:(done))
    as HB5.
  assert (storable (VStr (title_text company)) →
          storable (VStr (generated_text (now_text E))) →
          storable (VStr (total_text total)) →
          sheet_bind (ws_cell 5 1 (VStr statistics_text) ws3) (λ ws,
            ws_cell 6 1 (VStr (total_text total))
              (restyle (with_font bold_font) (5, 1)%positive ws))
          = SheetOk (summary_block company (now_text E) total)) as Hblock.
  { intros Ht Hg Htot. specialize (Hhead Ht Hg). injection Hhead as ->.
    by apply summary_block_run. }
  destruct (ws_cell 5 1 (VStr statistics_text) ws3) as [ws5|e5 ws5] eqn:H5;
    cbn [sheet_bind and_then sheet_after] in *.
  2:{ exists e5, ws5. split; [done|]. intros summary' [= <-] Ht Hg Htot.
      by specialize (Hblock Ht Hg Htot). }
  pose proof (ws_cell_other 6 1 (VStr (total_text total))
                (restyle (with_font bold_font) (5, 1)%positive ws5)
                (1, 2)%positive ltac:(done)) as HB6.
  destruct (ws_cell 6 1 (VStr (total_text total))
              (restyle (with_font bold_font) (5, 1)%positive ws5))
    as [ws6|e6 ws6] eqn:H6; cbn [sheet_bind and_then sheet_after] in *.
  2:{ exists e6, ws6. split; [done|]. intros summary' [= <-] Ht Hg Htot.
      by specialize (Hblock Ht Hg Htot). }
  assert (cells ws6 !! (1, 2)%positive = Some merged_cell) as HB.
  { rewrite HB6. unfold restyle; simpl. rewrite lookup_insert_ne by done.
    by rewrite HB5. }
  destruct (summary_period_after (start (date_range summary))
              (end_ (date_range summary)) ws6 wb self) as (ws7 & Hstate & Hother).
  destruct (format_summary_raises E _ ws7 wb self Hstate) as (e & ws' & -> & Hkeeps).
  { by rewrite Hother. }
  exists e, ws'. split; [done|]. intros summary' [= <-] Ht Hg Htot.
  specialize (Hblock Ht Hg Htot). injection Hblock as ->.
  destruct (summary_block_total company (now_text E) total) as (x & Hx & Hv).
  rewrite <- Hother in Hx by done.
  destruct (Hkeeps _ _ Hx) as (x' & Hx' & Hv'). exists x'. split; [done|].
  by rewrite Hv'.
Qed.

(** The document of a workbook whose worksheets all exist has one sheet per
    entry. *)
Lemma length_document (self : ExcelReportGenerator) (wb : list nat) :
  Forall (λ loc, loc < length (objects self))%nat wb →
  length (document self wb) = length wb.
Proof.
  unfold document. induction 1 as [|loc wb Hloc _ IH]; simpl; [done|].
  destruct (lookup_lt_is_Some_2 _ _ Hloc) as [ws ->]. simpl. f_equal. apply IH.
Qed.

Lemma seq_bounded (n k : nat) (m : nat) :
  (n + k ≤ m)%nat → Forall (λ loc, loc < m)%nat (seq n k).
Proof.
  intros Hm. rewrite Forall_forall. intros loc Hloc. apply elem_of_seq in Hloc. lia.
Qed.

(** When the statements before the saving return, no summary was to be
    made, and the workbook holds one existing worksheet per dataset. *)
Lemma assemble_returned (E : Env) (data_dict : list (string * DataFrame))
    (self s : ExcelReportGenerator) :
  assemble E data_dict self = Returned () s →
  config s = config self
  ∧ include_summary (config self) && negb (length data_dict =? 0)%nat = false
  ∧ ∃ wb, workbook s = Some wb
          ∧ length (document s wb) = length data_dict.
Proof.
  unfold assemble. intros Hrun.
  destruct (add_data_sheets E data_dict (create_workbook self)) as [[] s1|e s1] eqn:Hloop;
    cbn [and_then] in Hrun; [|done].
  destruct (add_data_sheets_returned E data_dict (create_workbook self) s1 []
              eq_refl Hloop) as (Hcfg & Hwb & Hlen).
  simpl in Hcfg, Hwb, Hlen. rewrite Hcfg in Hrun.
  destruct (include_summary (config self) && negb (length data_dict =? 0)%nat).
  - destruct (data_dict.*2) as [|first rest]; [done|].
    destruct (add_summary_sheet_raises E first s1 _ Hwb) as (e & ws & Hraised & _).
    congruence.
  - injection Hrun as <-. split_and!; [done | done |].
    eexists. split; [done|].
    rewrite length_document, length_seq; [done|].
    apply seq_bounded. lia.
Qed.






(** The call returns [True] exactly when there is a dataset, no summary is
    asked for, the worksheets of the datasets could be made and the file
    system accepts the document. *)
Lemma generate_complete_report_true_iff (E : Env)
    (data_dict : list (string * DataFrame)) (self : ExcelReportGenerator)
    (files : Files) :
  (generate_complete_report E data_dict self files).1.1 = true
  ↔ data_dict ≠ []
    ∧ include_summary (config self) = false
    ∧ ∃ s wb, assemble E data_dict self = Returned () s
              ∧ workbook s = Some wb
              ∧ persist E (output_path (config self)) (document s wb) = true.
Proof.
  split.
  - unfold generate_complete_report.
    destruct (assemble E data_dict self) as [[] s|e s] eqn:Hrun; [|done].
    destruct (assemble_returned E data_dict self s Hrun)
      as (Hcfg & Hsum & wb & Hwb & Hdoc).
    unfold save_report. rewrite Hwb, Hcfg.
    destruct (persist E (output_path (config self)) (document s wb)) eqn:Hpersist;
      [|done].
    destruct (document s wb) as [|sheet doc] eqn:Hd; [done|]. intros _.
    assert (data_dict ≠ []) as Hne by (intros ->; simpl in Hdoc; lia).
    split_and!; [done | | exists s, wb; by rewrite Hd].
    apply andb_false_iff in Hsum as [Hinc|Hk]; [done|].
    apply negb_false_iff, Nat.eqb_eq in Hk. by destruct data_dict.
  - intros (Hne & Hinc & s & wb & Hrun & Hwb & Hpersist).
    destruct (assemble_returned E data_dict self s Hrun)
      as (Hcfg & _ & wb' & Hwb' & Hdoc).
    rewrite Hwb in Hwb'. injection Hwb' as <-.
    unfold generate_complete_report, save_report. rewrite Hrun, Hwb, Hcfg, Hpersist.
    destruct (document s wb) as [|sheet doc]; [|done].
    simpl in Hdoc. by destruct data_dict.
Qed.

(** Without a summary the report of [regions] is written. *)
Example report_without_summary :
  let r := generate_complete_report demo_env [("Vendas", regions)]
             (new_generator no_summary_config) ∅ in
  r.1.1 = true ∧ length <$> r.2 !! "out/relatorio.xlsx" = Some 1%nat.
Proof. by vm_compute. Qed.

(** With the summary the formatting of the summary worksheet raises: the
    call returns [False] and nothing is saved, although both worksheets are
    in the workbook. *)
Example report_with_summary :
  let r := generate_complete_report demo_env [("Vendas", regions)]
             (new_generator demo_config) ∅ in
  r.1.1 = false ∧ r.2 = ∅ ∧ workbook r.1.2 = Some [0%nat; 1%nat].
Proof. by vm_compute. Qed.

(** A file system that refuses the file: [False], and no document. *)
Example report_not_persisted :
  let r := generate_complete_report read_only_env [("Vendas", regions)]
             (new_generator no_summary_config) ∅ in
  r.1.1 = false ∧ r.2 = ∅.
Proof. by vm_compute. Qed.

(** * Further properties *)

(** ** [add_worksheet] *)






(** [add_worksheet] returns only on a generator with a workbook and for a
    name that can be a title. *)
Lemma add_worksheet_returned (name : string) (data : DataFrame)
    (self s : ExcelReportGenerator) :
  add_worksheet name data self = Returned () s →
  ∃ wb, workbook self = Some wb ∧ valid_title name = true.
Proof.
  unfold add_worksheet, create_sheet.
  destruct (workbook self) as [wb|]; [|done].
  destruct (valid_title name); [by eexists | done].
Qed.


(** X2: [add_worksheet] never changes the configuration, a worksheet that
    was there before, or the registration of another name, whether it
    returns or raises; and the workbook keeps the worksheets it had, in
    order. *)
Theorem add_worksheet_keeps (name : string) (data : DataFrame)
    (self : ExcelReportGenerator) :
  config (state_after (add_worksheet name data self)) = config self
  ∧ (∀ loc ws, objects self !! loc = Some ws →
       objects (state_after (add_worksheet name data self)) !! loc = Some ws)
  ∧ (∀ other, other ≠ name →
       worksheets (state_after (add_worksheet name data self)) !! other
       = worksheets self !! other)
  ∧ (∀ wb, workbook self = Some wb →
       ∃ new, workbook (state_after (add_worksheet name data self)) = Some (wb ++ new)).
Proof.
  destruct (workbook self) as [wb|] eqn:Hwb.
  2:{ unfold add_worksheet, create_sheet. rewrite Hwb. by split_and!. }
  destruct (valid_title name) eqn:Hname.
  2:{ unfold add_worksheet, create_sheet. rewrite Hwb, Hname. simpl. split_and!; try done.
      intros wb' [= <-]. exists []. by rewrite app_nil_r. }
  destruct (add_worksheet_after name data self wb Hwb Hname) as (ws & _ & _ & ->).
  simpl. split_and!.
  - done.
  - intros loc ws0 Hloc. by apply lookup_app_l_Some.
  - intros other Hother. by rewrite lookup_insert_ne.
  - intros wb' [= <-]. by eexists.
Qed.

(** X3: a name registered twice refers to the newer worksheet. When
    [add_worksheet] returns twice for the same name, the workbook holds both
    worksheets, the older first, and [format_worksheet] under that name
    leaves the older one as it was. *)
Theorem add_worksheet_shadows (E : Env) (name : string) (first second : DataFrame)
    (self s1 s2 : ExcelReportGenerator) :
  add_worksheet name first self = Returned () s1 →
  add_worksheet name second s1 = Returned () s2 →
  let older := length (objects self) in
  ∃ wb ws,
    workbook self = Some wb
    ∧ workbook s2 = Some (wb ++ [older; S older])
    ∧ worksheets s2 !! name = Some (S older)
    ∧ objects s2 !! older = Some ws
    ∧ objects (state_after (format_worksheet E name s2)) !! older = Some ws.
Proof.
  intros Hfirst Hsecond older.
  destruct (add_worksheet_returned name first self s1 Hfirst) as (wb & Hwb & Hname).
  destruct (add_worksheet_after name first self wb Hwb Hname) as (ws & _ & _ & H1).
  rewrite Hfirst in H1. simpl in H1. subst s1.
  destruct (add_worksheet_after name second (with_new_sheet name ws wb self)
              (wb ++ [older]) eq_refl Hname) as (ws' & _ & _ & H2).
  rewrite Hsecond in H2. simpl in H2. subst s2.
  assert (length (objects self ++ [ws]) = S older) as Hlen.
  { rewrite length_app. simpl. unfold older. lia. }
  exists wb, ws. split_and!.
  - done.
  - simpl. rewrite Hlen, <- app_assoc. done.
  - simpl. by rewrite Hlen, lookup_insert_eq.
  - simpl. rewrite lookup_app_l by (rewrite Hlen; lia).
    by rewrite lookup_app_r, Nat.sub_diag.
  - rewrite (state_after_format E name ws' (wb ++ [older])
               (with_new_sheet name ws wb self)).
    simpl. rewrite lookup_app_l by (rewrite Hlen; lia).
    by rewrite lookup_app_r, Nat.sub_diag.
Qed.

Lemma add_worksheet_shadows_witness :
  ∃ wb ws,
    workbook (create_workbook (new_generator demo_config)) = Some wb
    ∧ workbook (state_after (add_worksheet "Vendas" ties populated_regions))
      = Some (wb ++ [0%nat; 1%nat])
    ∧ worksheets (state_after (add_worksheet "Vendas" ties populated_regions))
        !! "Vendas" = Some 1%nat
    ∧ objects (state_after (add_worksheet "Vendas" ties populated_regions)) !! 0%nat
      = Some ws
    ∧ objects
        (state_after
           (format_worksheet demo_env "Vendas"
              (state_after (add_worksheet "Vendas" ties populated_regions))))
        !! 0%nat = Some ws.
Proof.
  apply (add_worksheet_shadows demo_env "Vendas" regions ties
           (create_workbook (new_generator demo_config)) populated_regions
           (state_after (add_worksheet "Vendas" ties populated_regions))).
  - reflexivity.
  - reflexivity.
Defined.

(** ** [format_worksheet] *)

Lemma format_sheet_bounds (E : Env) (ws ws' : Worksheet) :
  header_unmerged ws → lettered ws →
  format_sheet E ws = SheetOk ws' →
  ws_max_row ws' = ws_max_row ws ∧ ws_max_column ws' = ws_max_column ws.
Proof.
  intros Hhead Hletter Hrun.
  destruct (format_sheet_spec E ws Hhead Hletter) as (ws0 & Hrun0 & Hc & _).
  rewrite Hrun in Hrun0. injection Hrun0 as <-. split.
  - apply ws_max_eq.
    + intros rc x. rewrite Hc. case_decide as Hin; [|done]. intros _. by destruct Hin.
    + exists (ws_max_row ws, 1%positive), (formatted_cell ws (ws_max_row ws, 1%positive)).
      split; [|done]. rewrite Hc, decide_True; [done|]. simpl. lia.
  - apply ws_max_eq.
    + intros rc x. rewrite Hc. case_decide as Hin; [|done]. intros _. by destruct Hin.
    + exists (1%positive, ws_max_column ws), (formatted_cell ws (1%positive, ws_max_column ws)).
      split; [|done]. rewrite Hc, decide_True; [done|]. simpl. lia.
Qed.

(** X4: [format_worksheet] on a registered worksheet whose row 1 has no
    merged cell and whose columns have letters: afterwards the worksheet has
    a cell exactly at the places of the rectangle of its rows and columns,
    which stay the same in number; the cells of row 1 have the header font,
    fill and alignment; the cells of the other rows keep the font, fill and
    alignment they had; charts, merged ranges and the widths of the columns
    outside the rectangle are untouched. *)
Theorem format_worksheet_styles (E : Env) (ws_name : string)
    (self : ExcelReportGenerator) (loc : nat) (ws : Worksheet) :
  worksheets self !! ws_name = Some loc →
  objects self !! loc = Some ws →
  header_unmerged ws →
  lettered ws →
  ∃ ws',
    format_worksheet E ws_name self
    = Returned () (with_objects (<[loc := ws']> (objects self)) self)
    ∧ (∀ r c, is_Some (cells ws' !! (r, c))
              ↔ (r ≤ ws_max_row ws)%positive ∧ (c ≤ ws_max_column ws)%positive)
    ∧ ws_max_row ws' = ws_max_row ws
    ∧ ws_max_column ws' = ws_max_column ws
    ∧ (∀ c, (c ≤ ws_max_column ws)%positive →
         ∃ x, cells ws' !! (1%positive, c) = Some x
              ∧ font x = Some header_font
              ∧ fill x = Some header_fill
              ∧ alignment x = Some header_alignment)
    ∧ (∀ r c, (1 < r)%positive → (r ≤ ws_max_row ws)%positive →
         (c ≤ ws_max_column ws)%positive →
         ∃ x, cells ws' !! (r, c) = Some x
              ∧ font x = font (get_cell ws (r, c))
              ∧ fill x = fill (get_cell ws (r, c))
              ∧ alignment x = alignment (get_cell ws (r, c)))
    ∧ charts ws' = charts ws
    ∧ merged_cells ws' = merged_cells ws
    ∧ (∀ c, (ws_max_column ws < c)%positive →
         column_dimensions ws' !! c = column_dimensions ws !! c).
Proof.
  intros Hname Hloc Hhead Hletter.
  destruct (format_worksheet_twice E ws_name self loc ws Hname Hloc Hhead Hletter)
    as (ws' & Hrun & Hfirst & _).
  destruct (format_sheet_bounds E ws ws' Hhead Hletter Hrun) as [Hr Hc].
  destruct (format_sheet_spec E ws Hhead Hletter) as (ws0 & Hrun0 & Hcells & Hd & Hch & Hm).
  rewrite Hrun in Hrun0. injection Hrun0 as <-.
  exists ws'. split_and!; [done | | done | done | | | done | done |].
  - intros r c. rewrite Hcells. simpl. case_decide; [by split | split; [by intros [? ?] | done]].
  - intros c Hcol. exists (formatted_cell ws (1%positive, c)).
    rewrite Hcells, decide_True by (simpl; split; [lia | done]).
    unfold formatted_cell. by rewrite decide_True.
  - intros r c Hr1 Hrow Hcol. exists (formatted_cell ws (r, c)).
    rewrite Hcells, decide_True by done.
    unfold formatted_cell. rewrite decide_False by (simpl; lia). done.
  - intros c Hout. rewrite Hd, decide_False; [done | lia].
Qed.

Lemma format_worksheet_styles_witness :
  ∃ ws',
    format_worksheet demo_env "Vendas" populated_regions
    = Returned () (with_objects (<[0%nat := ws']> (objects populated_regions))
                     populated_regions)
    ∧ (∀ r c, is_Some (cells ws' !! (r, c))
              ↔ (r ≤ ws_max_row (sheet_of regions))%positive
                ∧ (c ≤ ws_max_column (sheet_of regions))%positive)
    ∧ ws_max_row ws' = ws_max_row (sheet_of regions)
    ∧ ws_max_column ws' = ws_max_column (sheet_of regions)
    ∧ (∀ c, (c ≤ ws_max_column (sheet_of regions))%positive →
         ∃ x, cells ws' !! (1%positive, c) = Some x
              ∧ font x = Some header_font
              ∧ fill x = Some header_fill
              ∧ alignment x = Some header_alignment)
    ∧ (∀ r c, (1 < r)%positive → (r ≤ ws_max_row (sheet_of regions))%positive →
         (c ≤ ws_max_column (sheet_of regions))%positive →
         ∃ x, cells ws' !! (r, c) = Some x
              ∧ font x = font (get_cell (sheet_of regions) (r, c))
              ∧ fill x = fill (get_cell (sheet_of regions) (r, c))
              ∧ alignment x = alignment (get_cell (sheet_of regions) (r, c)))
    ∧ charts ws' = charts (sheet_of regions)
    ∧ merged_cells ws' = merged_cells (sheet_of regions)
    ∧ (∀ c, (ws_max_column (sheet_of regions) < c)%positive →
         column_dimensions ws' !! c = column_dimensions (sheet_of regions) !! c).
Proof.
  apply (format_worksheet_styles demo_env "Vendas" populated_regions 0 (sheet_of regions)).
  - reflexivity.
  - reflexivity.
  - intros c. apply unmerged_get_cell.
    apply (add_worksheet_returns "Vendas" regions
             (create_workbook (new_generator demo_config)) [] eq_refl eq_refl).
    split; repeat constructor.
  - by vm_compute.
Defined.

(** X5: [format_worksheet] on a registered worksheet that has no cell yet
    makes the cell [A1]: it is empty, styled as a header and bordered, it is
    the only cell, and column [A] gets the width 6, for the four characters
    of [None]. *)
Theorem format_worksheet_no_cells (E : Env) (ws_name : string)
    (self : ExcelReportGenerator) (loc : nat) (ws : Worksheet) :
  worksheets self !! ws_name = Some loc →
  objects self !! loc = Some ws →
  cells ws = ∅ →
  ∃ ws',
    format_worksheet E ws_name self
    = Returned () (with_objects (<[loc := ws']> (objects self)) self)
    ∧ cells ws'
      = {[ (1%positive, 1%positive)
           := with_border thin_border (style_header_cell empty_cell) ]}
    ∧ column_dimensions ws' = <[1%positive := 6]> (column_dimensions ws).
Proof.
  intros Hname Hloc Hempty.
  assert (ws_max_row ws = 1%positive) as Hrow.
  { unfold ws_max_row, ws_max. by rewrite Hempty, map_fold_empty. }
  assert (ws_max_column ws = 1%positive) as Hcol.
  { unfold ws_max_column, ws_max. by rewrite Hempty, map_fold_empty. }
  assert (∀ rc, get_cell ws rc = empty_cell) as Hget.
  { intros rc. unfold get_cell. by rewrite Hempty, lookup_empty. }
  assert (header_unmerged ws) as Hhead by (intros c; by rewrite Hget).
  assert (lettered ws) as Hletter by (unfold lettered; by rewrite Hcol).
  destruct (format_worksheet_twice E ws_name self loc ws Hname Hloc Hhead Hletter)
    as (ws' & Hrun & Hfirst & _).
  destruct (format_sheet_spec E ws Hhead Hletter) as (ws0 & Hrun0 & Hcells & Hd & _).
  rewrite Hrun in Hrun0. injection Hrun0 as <-.
  exists ws'. split_and!; [done | |].
  - apply map_eq. intros [r c]. rewrite Hcells, Hrow, Hcol. simpl.
    destruct (decide ((r, c) = (1%positive, 1%positive))) as [[= -> ->]|Hne].
    + rewrite lookup_singleton_eq, decide_True by done.
      unfold formatted_cell. by rewrite Hget, decide_True.
    + rewrite lookup_singleton_ne by done. rewrite decide_False; [done|].
      intros [Hr Hc]. apply Hne. f_equal; lia.
  - apply map_eq. intros c. rewrite Hd, Hcol.
    destruct (decide (c = 1%positive)) as [->|Hne].
    + rewrite lookup_insert_eq, decide_True by done. f_equal.
      unfold column_width. rewrite Hrow. unfold longest. simpl.
      by rewrite Hget.
    + rewrite lookup_insert_ne by done. rewrite decide_False; [done | lia].
Qed.

Lemma format_worksheet_no_cells_witness :
  ∃ ws',
    format_worksheet demo_env "Vazia" untouched_state
    = Returned () (with_objects (<[0%nat := ws']> (objects untouched_state))
                     untouched_state)
    ∧ cells ws'
      = {[ (1%positive, 1%positive)
           := with_border thin_border (style_header_cell empty_cell) ]}
    ∧ column_dimensions ws' = <[1%positive := 6]> (column_dimensions empty_sheet).
Proof.
  apply (format_worksheet_no_cells demo_env "Vazia" untouched_state 0 empty_sheet).
  - reflexivity.
  - reflexivity.
  - reflexivity.
Defined.

(** X6: [format_worksheet] on a registered worksheet with a merged cell in
    row 1 raises, and the worksheet keeps every cell it had, with its
    value. *)
Theorem format_worksheet_merged_header (E : Env) (ws_name : string)
    (self : ExcelReportGenerator) (loc : nat) (ws : Worksheet)
    (c : positive) (x : Cell) :
  worksheets self !! ws_name = Some loc →
  objects self !! loc = Some ws →
  cells ws !! (1%positive, c) = Some x →
  merged x = true →
  ∃ e ws',
    format_worksheet E ws_name self
    = Raised e (with_objects (<[loc := ws']> (objects self)) self)
    ∧ keeps_values ws ws'.
Proof.
  intros Hname Hloc Hx Hm.
  destruct (format_sheet_merged_raises E ws c x Hx Hm) as (e & ws' & Hrun).
  pose proof (keeps_values_format_sheet E ws) as Hkeeps.
  rewrite Hrun in Hkeeps. simpl in Hkeeps.
  exists e, ws'. split; [|done].
  unfold format_worksheet, on_sheet. by rewrite Hname, Hloc, Hrun.
Qed.

Lemma format_worksheet_merged_header_witness :
  ∃ e ws',
    format_worksheet demo_env resumo_executivo summary_state
    = Raised e (with_objects (<[0%nat := ws']> (objects summary_state)) summary_state)
    ∧ keeps_values (summary_head "Empresa XYZ" "01/01/2025 10:00") ws'.
Proof.
  apply (format_worksheet_merged_header demo_env resumo_executivo summary_state 0
           (summary_head "Empresa XYZ" "01/01/2025 10:00") 2 merged_cell).
  - reflexivity.
  - reflexivity.
  - reflexivity.
  - reflexivity.
Defined.

(** ** [add_summary_sheet] and [generate_complete_report] *)

(** X7: [add_summary_sheet] never returns. Without a workbook it raises at
    once and changes nothing. With a workbook it raises after it has added
    the summary worksheet, last in the workbook and registered as
    [Resumo Executivo]: at the latest when it formats the worksheet, whose
    merged title cells have no column letter. The configuration stays as it
    is. *)
Theorem add_summary_sheet_never_returns (E : Env) (analyzer : DataFrame)
    (self : ExcelReportGenerator) :
  ∃ e s,
    add_summary_sheet E analyzer self = Raised e s
    ∧ config s = config self
    ∧ (workbook self = None → e = AttributeError ∧ s = self)
    ∧ (∀ wb, workbook self = Some wb →
         workbook s = Some (wb ++ [length (objects self)])
         ∧ worksheets s !! resumo_executivo = Some (length (objects self))
         ∧ length (objects s) = S (length (objects self))).
Proof.
  destruct (workbook self) as [wb|] eqn:Hwb.
  - destruct (add_summary_sheet_raises E analyzer self wb Hwb) as (e & ws & Hrun & _).
    eexists e, _. split; [apply Hrun|]. split_and!; [done | done |].
    intros wb' [= <-]. simpl. split_and!; [done | by rewrite lookup_insert_eq |].
    rewrite length_app. simpl. lia.
  - exists AttributeError, self. unfold add_summary_sheet, create_sheet. rewrite Hwb.
    by split_and!.
Qed.



Lemma ws_cell_plain (r c : positive) (v : pyval) (ws : Worksheet) :
  plain ws → plain (sheet_after (ws_cell r c v ws)).
Proof.
  intros Hws. unfold ws_cell. cbv zeta. case_decide; [done|].
  destruct (merged (get_cell (touch (r, c) ws) (r, c))); [done|].
  by destruct (bind_value v).
Qed.

Lemma populate_plain (data : DataFrame) (ws : Worksheet) :
  plain ws →
  plain (sheet_after (sheet_bind (write_header data ws) (write_rows data))).
Proof.
  intros Hws. apply (sheet_after_bind plain).
  - apply (for_each_after plain); [|done].
    intros p w _ Hw. by apply ws_cell_plain.
  - intros w Hw. apply (for_each_after plain); [|done].
    intros p w' _ Hw'. apply (for_each_after plain); [|done].
    intros q w'' _ Hw''. by apply ws_cell_plain.
Qed.

Lemma restyle_all_plain (f : Cell → Cell) (l : list (positive * positive))
    (ws : Worksheet) :
  plain ws → plain (restyle_all f l ws).
Proof.
  intros [Hc Hm]. destruct (restyle_all_other f l ws) as (_ & Hc' & Hm').
  split; congruence.
Qed.

(** [format_worksheet] binds no chart and merges no range, whether it
    returns or raises. *)
Lemma format_sheet_plain (E : Env) (ws : Worksheet) :
  plain ws → plain (sheet_after (format_sheet E ws)).
Proof.
  intros Hws. unfold format_sheet. cbv zeta.
  apply (sheet_after_bind plain).
  - apply (for_each_after plain); [|by apply restyle_all_plain].
    intros col w _ Hw.
    assert (plain (touch_all col w)) as Htouch.
    { rewrite touch_all_restyle. by apply restyle_all_plain. }
    unfold fit_column. destruct col as [|first col]; [done|].
    destruct (merged (get_cell (touch_all (first :: col) w) first)); [done|].
    by destruct (last_lettered_column <? first.2)%positive.
  - intros w Hw. simpl. generalize (ws_iter_rows w). intros rows.
    revert w Hw. induction rows as [|row rows IH]; intros w Hw; simpl; [done|].
    apply IH. unfold border_row. apply restyle_all_plain.
    rewrite touch_all_restyle. by apply restyle_all_plain.
Qed.

(** One turn of the loop over the datasets adds a worksheet without charts
    and merged ranges, whether it returns or raises. *)
Lemma data_sheet_plain (E : Env) (name : string) (data : DataFrame)
    (self : ExcelReportGenerator) (wb : list nat) :
  workbook self = Some wb →
  valid_title name = true →
  ∃ ws,
    plain ws
    ∧ state_after
        (and_then (add_worksheet name data self) (λ _ self,
           if auto_format (config self) then format_worksheet E name self
           else Returned () self))
      = with_new_sheet name ws wb self.
Proof.
  intros Hwb Hname.
  assert (∃ ws, plain ws
                ∧ state_after (add_worksheet name data self)
                  = with_new_sheet name ws wb self) as (ws & Hplain & Hstate).
  { unfold add_worksheet, create_sheet. rewrite Hwb, Hname. simpl.
    eexists. split; [|apply (state_after_on_sheet_last _ name empty_sheet wb self)].
    by apply populate_plain. }
  destruct (add_worksheet name data self) as [[] s|e s]; simpl in Hstate; subst s;
    [|by exists ws].
  unfold and_then.
  destruct (auto_format (config (with_new_sheet name ws wb self))); [|by exists ws].
  exists (sheet_after (format_sheet E ws)).
  split; [by apply format_sheet_plain | apply state_after_format].
Qed.

(** When the loop over the datasets runs to its end, the worksheets it has
    added follow those that were there, one per dataset, and none of them
    has a chart or a merged range. *)
Lemma add_data_sheets_plain (E : Env) (items : list (string * DataFrame)) :
  ∀ (self s : ExcelReportGenerator) (wb : list nat),
    workbook self = Some wb →
    add_data_sheets E items self = Returned () s →
    ∃ new, objects s = objects self ++ new
           ∧ length new = length items
           ∧ Forall plain new.
Proof.
  induction items as [|[name data] items IH]; intros self s wb Hwb Hrun; simpl in Hrun.
  - injection Hrun as <-. exists []. by rewrite app_nil_r.
  - rewrite <- and_then_assoc in Hrun.
    destruct (valid_title name) eqn:Hname.
    2:{ by rewrite (data_sheet_refused E name data self wb Hwb Hname) in Hrun. }
    destruct (data_sheet_plain E name data self wb Hwb Hname) as (ws & Hplain & Hstate).
    destruct (and_then (add_worksheet name data self) _) as [[] s1|e s1];
      simpl in Hstate, Hrun; [|done].
    subst s1.
    destruct (IH (with_new_sheet name ws wb self) s
                (wb ++ [length (objects self)]) eq_refl Hrun)
      as (new & Hobjs & Hlen & Hnew).
    exists (ws :: new). simpl in *. rewrite Hobjs, <- app_assoc. simpl.
    split_and!; [done | by rewrite Hlen | by constructor].
Qed.

(** The document of a workbook that lists the worksheets added last. *)
Lemma document_new (self : ExcelReportGenerator) (old new : list Worksheet) :
  objects self = old ++ new →
  document self (seq (length old) (length new)) = new.
Proof.
  unfold document. intros ->. revert old.
  induction new as [|ws new IH]; intros old; simpl; [done|].
  rewrite lookup_app_r, Nat.sub_diag by done. simpl. f_equal.
  specialize (IH (old ++ [ws])). rewrite length_app, Nat.add_1_r in IH.
  by rewrite <- app_assoc in IH.
Qed.

(** X9: the call never binds a chart, whatever [include_charts] says.
    Whenever it returns [True], the document it has written has one
    worksheet per dataset, and no worksheet of it has a chart or a merged
    range. *)
Theorem generate_complete_report_binds_no_chart (E : Env)
    (data_dict : list (string * DataFrame)) (self : ExcelReportGenerator)
    (files : Files) :
  (generate_complete_report E data_dict self files).1.1 = true →
  ∃ doc,
    (generate_complete_report E data_dict self files).2
    = <[output_path (config self) := doc]> files
    ∧ length doc = length data_dict
    ∧ Forall (λ ws, charts ws = [] ∧ merged_cells ws = []) doc.
Proof.
  unfold generate_complete_report.
  destruct (assemble E data_dict self) as [[] s|e s] eqn:Hrun; [|done].
  destruct (assemble_returned E data_dict self s Hrun) as (Hcfg & Hsum & _).
  unfold assemble in Hrun.
  destruct (add_data_sheets E data_dict (create_workbook self)) as [[] s1|e s1] eqn:Hloop;
    cbn [and_then] in Hrun; [|done].
  destruct (add_data_sheets_returned E data_dict (create_workbook self) s1 []
              eq_refl Hloop) as (Hcfg1 & Hwb & _).
  destruct (add_data_sheets_plain E data_dict (create_workbook self) s1 []
              eq_refl Hloop) as (new & Hobjs & Hlen & Hnew).
  simpl in Hcfg1, Hwb, Hobjs. rewrite Hcfg1, Hsum in Hrun. injection Hrun as <-.
  unfold save_report. rewrite Hwb, Hcfg1, <- Hlen, (document_new s1 _ _ Hobjs).
  destruct (persist E (output_path (config self)) new); [|done].
  destruct new as [|ws new]; [done|]. intros _. by exists (ws :: new).
Qed.

Lemma generate_complete_report_binds_no_chart_witness :
  ∃ doc,
    (generate_complete_report demo_env [("Vendas", regions)]
       (new_generator no_summary_config) ∅).2
    = <[output_path no_summary_config := doc]> ∅
    ∧ length doc = 1%nat
    ∧ Forall (λ ws, charts ws = [] ∧ merged_cells ws = []) doc.
Proof.
  apply (generate_complete_report_binds_no_chart demo_env [("Vendas", regions)]
           (new_generator no_summary_config) ∅).
  reflexivity.
Defined.





(** ** [get_summary_stats] *)

Lemma py_lt_raises (a b : pyval) (e : exn) : py_lt a b = Raise e → e = TypeError.
Proof. destruct a, b; simpl; congruence. Qed.

Lemma reduce_min_raises (xs : list pyval) :
  ∀ acc e, reduce_min acc xs = Raise e → e = TypeError.
Proof.
  induction xs as [|x xs IH]; intros acc e; simpl; [done|].
  destruct (py_lt x acc) as [b|e'] eqn:Hlt; simpl.
  - apply IH.
  - intros [= <-]. by eapply py_lt_raises.
Qed.

Lemma reduce_max_raises (xs : list pyval) :
  ∀ acc e, reduce_max acc xs = Raise e → e = TypeError.
Proof.
  induction xs as [|x xs IH]; intros acc e; simpl; [done|].
  destruct (py_lt acc x) as [b|e'] eqn:Hlt; simpl.
  - apply IH.
  - intros [= <-]. by eapply py_lt_raises.
Qed.

Lemma series_min_raises (t : dtype) (xs : list pyval) (e : exn) :
  series_min t xs = Raise e → e = TypeError.
Proof.
  unfold series_min, series_reduce. destruct (forallb is_null xs); [done|].
  destruct (compared _ t xs); [done|]. apply reduce_min_raises.
Qed.

Lemma series_max_raises (t : dtype) (xs : list pyval) (e : exn) :
  series_max t xs = Raise e → e = TypeError.
Proof.
  unfold series_max, series_reduce. destruct (forallb is_null xs); [done|].
  destruct (compared _ t xs); [done|]. apply reduce_max_raises.
Qed.

(** A typed column holds values of one kind. *)
Lemma typed_comparable (t : dtype) (xs : list pyval) :
  t ≠ object → Forall (conforms t) xs → comparable t xs.
Proof.
  intros Ht Hxs.
  exists (match t with datetime64 => Moment | _ => Number end). intros filler.
  rewrite Forall_forall in Hxs. rewrite Forall_forall. intros v Hv.
  destruct t; [| |done|]; simpl in Hv; apply list_elem_of_filter in Hv as [Hnull Hin];
    specialize (Hxs v Hin); destruct v; done.
Qed.

(** X11: [get_summary_stats] raises nothing but [TypeError], and only when
    the frame has a [data] column; on a well-formed frame whose [data]
    column, if there is one, is typed (integers, floats or timestamps) it
    returns. *)
Theorem get_summary_stats_raises_only (E : Env) (data : DataFrame) :
  (∀ e, get_summary_stats E data = Raise e →
     e = TypeError ∧ "data" ∈ columns data)
  ∧ (well_formed data → column_dtype data "data" ≠ object →
     ∃ summary, get_summary_stats E data = Ok summary).
Proof.
  split.
  - intros e. unfold get_summary_stats.
    destruct (decide ("data" ∈ columns data)) as [Hin|Hout]; [|done].
    destruct (series_min _ _) as [first|e1] eqn:Hmin; simpl.
    2:{ intros [= <-]. split; [by eapply series_min_raises | done]. }
    destruct (series_max _ _) as [last|e2] eqn:Hmax; simpl; [done|].
    intros [= <-]. split; [by eapply series_max_raises | done].
  - intros Hwf Htyped. unfold get_summary_stats.
    destruct (decide ("data" ∈ columns data)) as [Hin|Hout]; [|by eexists].
    destruct (column_conforms data "data" Hwf Hin) as [Hconf _].
    pose proof (typed_comparable _ _ Htyped Hconf) as Hcmp.
    destruct (series_min_comparable _ _ Hcmp) as [first ->].
    destruct (series_max_comparable _ _ Hcmp) as [last ->]. by eexists.
Qed.

Lemma date_ltb_leb (a b : date) : date_ltb a b = true → date_leb a b = true.
Proof.
  intros Hlt. apply date_leb_spec. unfold date_ltb in Hlt.
  rewrite !orb_true_iff, !andb_true_iff, !orb_true_iff, !andb_true_iff in Hlt.
  rewrite !Z.ltb_lt, !Z.eqb_eq in Hlt. lia.
Qed.

Lemma date_leb_refl (a : date) : date_leb a a = true.
Proof. apply date_leb_spec. lia. Qed.

Lemma date_leb_trans (a b c : date) :
  date_leb a b = true → date_leb b c = true → date_leb a c = true.
Proof. rewrite !date_leb_spec. lia. Qed.

Lemma reduce_min_dates (ds : list date) :
  ∀ a, ∃ lo,
    reduce_min (VDate a) (VDate <$> ds) = Ok (VDate lo)
    ∧ lo ∈ a :: ds
    ∧ ∀ d, d ∈ a :: ds → date_leb lo d = true.
Proof.
  induction ds as [|x ds IH]; intros a; simpl.
  - exists a. split_and!; [done | by left |].
    intros d Hd. apply list_elem_of_singleton in Hd as ->. apply date_leb_refl.
  - destruct (date_ltb x a) eqn:Hlt.
    + destruct (IH x) as (lo & Hrun & Hin & Hle). exists lo.
      split_and!; [exact Hrun | by right |].
      intros d Hd. apply elem_of_cons in Hd as [->|Hd]; [|by apply Hle].
      eapply date_leb_trans; [apply Hle; by left | by apply date_ltb_leb].
    + destruct (IH a) as (lo & Hrun & Hin & Hle). exists lo.
      split_and!; [exact Hrun | |].
      * apply elem_of_cons in Hin as [->|Hin]; [by left | by do 2 right].
      * intros d Hd. apply elem_of_cons in Hd as [->|Hd]; [apply Hle; by left|].
        apply elem_of_cons in Hd as [->|Hd]; [|apply Hle; by right].
        eapply date_leb_trans; [apply Hle; by left|].
        unfold date_leb. by rewrite Hlt.
Qed.

Lemma reduce_max_dates (ds : list date) :
  ∀ a, ∃ hi,
    reduce_max (VDate a) (VDate <$> ds) = Ok (VDate hi)
    ∧ hi ∈ a :: ds
    ∧ ∀ d, d ∈ a :: ds → date_leb d hi = true.
Proof.
  induction ds as [|x ds IH]; intros a; simpl.
  - exists a. split_and!; [done | by left |].
    intros d Hd. apply list_elem_of_singleton in Hd as ->. apply date_leb_refl.
  - destruct (date_ltb a x) eqn:Hlt.
    + destruct (IH x) as (hi & Hrun & Hin & Hle). exists hi.
      split_and!; [exact Hrun | by right |].
      intros d Hd. apply elem_of_cons in Hd as [->|Hd]; [|by apply Hle].
      eapply date_leb_trans; [by apply date_ltb_leb | apply Hle; by left].
    + destruct (IH a) as (hi & Hrun & Hin & Hle). exists hi.
      split_and!; [exact Hrun | |].
      * apply elem_of_cons in Hin as [->|Hin]; [by left | by do 2 right].
      * intros d Hd. apply elem_of_cons in Hd as [->|Hd]; [apply Hle; by left|].
        apply elem_of_cons in Hd as [->|Hd]; [|apply Hle; by right].
        eapply date_leb_trans; [|apply Hle; by left].
        unfold date_leb. by rewrite Hlt.
Qed.

(** In a timestamp column the values that are not missing are the
    timestamps. *)
Lemma filter_dates (xs : list pyval) :
  Forall (conforms datetime64) xs →
  filter (λ v, is_null v = false) xs = VDate <$> dates_of xs.
Proof.
  induction 1 as [|v xs Hv _ IH]; [done|].
  rewrite filter_cons. destruct v; try done; simpl.
  f_equal. exact IH.
Qed.

Lemma elem_of_dates_of (xs : list pyval) (d : date) :
  d ∈ dates_of xs ↔ VDate d ∈ xs.
Proof.
  unfold dates_of. rewrite list_elem_of_omap. split.
  - intros (v & Hv & Hd). destruct v; try done. by injection Hd as ->.
  - intros Hd. by exists (VDate d).
Qed.

(** X12: on a well-formed frame whose [data] column holds timestamps, at
    least one, the date range of [get_summary_stats] starts with the
    earliest and ends with the latest timestamp of the column; missing
    timestamps are passed over. *)
Theorem get_summary_stats_date_range (E : Env) (data : DataFrame) (d0 : date) :
  well_formed data →
  "data" ∈ columns data →
  column_dtype data "data" = datetime64 →
  VDate d0 ∈ column data "data" →
  ∃ summary lo hi,
    get_summary_stats E data = Ok summary
    ∧ date_range summary = {| start := VDate lo; end_ := VDate hi |}
    ∧ VDate lo ∈ column data "data"
    ∧ VDate hi ∈ column data "data"
    ∧ ∀ d, VDate d ∈ column data "data" →
        date_leb lo d = true ∧ date_leb d hi = true.
Proof.
  intros Hwf Hin Hdtype Hd0.
  destruct (column_conforms data "data" Hwf Hin) as [Hconf _].
  rewrite Hdtype in Hconf.
  unfold get_summary_stats.
  destruct (decide ("data" ∈ columns data)) as [_|?]; [|done]. rewrite Hdtype.
  set (xs := column data "data") in *.
  assert (forallb is_null xs = false) as Hnull.
  { apply not_true_is_false. intros Hall.
    rewrite forallb_forall in Hall. apply list_elem_of_In in Hd0.
    by specialize (Hall _ Hd0). }
  pose proof (proj2 (elem_of_dates_of xs d0) Hd0) as Hd0'.
  unfold series_min, series_max, series_reduce, compared. rewrite Hnull.
  rewrite (filter_dates xs Hconf).
  destruct (dates_of xs) as [|a ds] eqn:Hds; [by apply elem_of_nil in Hd0'|].
  rewrite fmap_cons.
  destruct (reduce_min_dates ds a) as (lo & -> & Hlo & Hmin).
  destruct (reduce_max_dates ds a) as (hi & -> & Hhi & Hmax). simpl.
  eexists _, lo, hi. split_and!; [done | done | | |].
  - apply elem_of_dates_of. by rewrite Hds.
  - apply elem_of_dates_of. by rewrite Hds.
  - intros d Hd. apply elem_of_dates_of in Hd. rewrite Hds in Hd.
    split; [by apply Hmin | by apply Hmax].
Qed.

Lemma well_formed_two_months : well_formed two_months.
Proof.
  split.
  - by apply (bool_decide_unpack (NoDup (columns two_months))).
  - done.
  - repeat constructor; by vm_compute.
Qed.

Lemma get_summary_stats_date_range_witness :
  ∃ summary lo hi,
    get_summary_stats demo_env two_months = Ok summary
    ∧ date_range summary = {| start := VDate lo; end_ := VDate hi |}
    ∧ VDate lo ∈ column two_months "data"
    ∧ VDate hi ∈ column two_months "data"
    ∧ ∀ d, VDate d ∈ column two_months "data" →
        date_leb lo d = true ∧ date_leb d hi = true.
Proof.
  apply (get_summary_stats_date_range demo_env two_months (Date 2024 1 10)).
  - apply well_formed_two_months.
  - by apply (bool_decide_unpack ("data" ∈ columns two_months)).
  - reflexivity.
  - by left.
Defined.

(** ** Totals of the groups and of the months *)






















(** ** A chart on a new worksheet *)


